(** * poker-moons: the winner determiner (hand ranking and comparison)

    A shallow embedding of [rankHand], [compareHands] and the two type guards
    of the winner-determiner utility, followed by the properties of the
    evaluator that its specification states.

    JavaScript values are modelled as the code uses them: the numbers that a
    score can hold are integers together with [NaN] and the two infinities
    ([Math.max] of no argument is [-Infinity]); the records [suits], [ranks]
    and [categoryMap] are objects whose keys are enumerated in a fixed order,
    hence association lists; exceptions are an error monad. *)

From Stdlib Require Import String Ascii.
From Stdlib Require Import List ZArith Lia Bool Arith.
From Stdlib Require Import Permutation Sorted.
Import ListNotations.

Set Implicit Arguments.

(* ================================================================== *)
(** ** JavaScript numbers, strings and array methods *)
(* ================================================================== *)

Module Js.

(** The values a [number] takes in this program: integers, [NaN], and the
    infinities. *)
Inductive number : Type :=
| NaN
| NegInfinity
| PosInfinity
| Num (z : Z).

Definition add (a b : number) : number :=
  match a, b with
  | NaN, _ | _, NaN => NaN
  | Num x, Num y => Num (x + y)
  | NegInfinity, PosInfinity | PosInfinity, NegInfinity => NaN
  | NegInfinity, _ | _, NegInfinity => NegInfinity
  | PosInfinity, _ | _, PosInfinity => PosInfinity
  end.

Definition neg (a : number) : number :=
  match a with
  | NaN => NaN
  | NegInfinity => PosInfinity
  | PosInfinity => NegInfinity
  | Num x => Num (- x)
  end.

Definition sub (a b : number) : number := add a (neg b).

Definition mul (a b : number) : number :=
  match a, b with
  | NaN, _ | _, NaN => NaN
  | Num x, Num y => Num (x * y)
  | Num x, PosInfinity | PosInfinity, Num x =>
      if (x =? 0)%Z then NaN else if (0 <? x)%Z then PosInfinity else NegInfinity
  | Num x, NegInfinity | NegInfinity, Num x =>
      if (x =? 0)%Z then NaN else if (0 <? x)%Z then NegInfinity else PosInfinity
  | PosInfinity, PosInfinity | NegInfinity, NegInfinity => PosInfinity
  | PosInfinity, NegInfinity | NegInfinity, PosInfinity => NegInfinity
  end.

(** [a > 0]; every comparison with [NaN] is false. *)
Definition positive (a : number) : bool :=
  match a with
  | PosInfinity => true
  | Num x => (0 <? x)%Z
  | NaN | NegInfinity => false
  end.

Definition max2 (a b : number) : number :=
  match a, b with
  | NaN, _ | _, NaN => NaN
  | PosInfinity, _ | _, PosInfinity => PosInfinity
  | NegInfinity, x | x, NegInfinity => x
  | Num x, Num y => Num (Z.max x y)
  end.

(** [Math.max(...l)]: [-Infinity] when [l] is empty. *)
Definition Math_max (l : list number) : number :=
  fold_left max2 l NegInfinity.

(** *** Decimal strings *)

Definition digit (c : ascii) : option Z :=
  let n := nat_of_ascii c in
  if ((48 <=? n) && (n <=? 57))%nat then Some (Z.of_nat (n - 48)) else None.

(** The value of the longest prefix of decimal digits, [None] when the
    string does not start with a digit. *)
Fixpoint digits (s : string) (acc : option Z) : option Z :=
  match s with
  | EmptyString => acc
  | String c s' =>
      match digit c with
      | Some d =>
          digits s' (Some (10 * match acc with Some a => a | None => 0 end + d)%Z)
      | None => acc
      end
  end.

Fixpoint all_digits (s : string) : bool :=
  match s with
  | EmptyString => true
  | String c s' => match digit c with Some _ => all_digits s' | None => false end
  end.

(** [parseInt(x)] on what this program passes to it: a string of a record's
    keys (unsigned decimal, no white space, no radix prefix) or
    [undefined] ([None]), which is not a number. *)
Definition parseInt (x : option string) : number :=
  match x with
  | None => NaN
  | Some s => match digits s None with Some z => Num z | None => NaN end
  end.

(** [Number(s)]: the whole string must be a numeral; the empty string is 0. *)
Definition Number (s : string) : number :=
  if all_digits s
  then match digits s None with Some z => Num z | None => Num 0 end
  else NaN.

(** *** Array methods *)

Section Arrays.
Context {A : Type}.

Fixpoint findIndex_from (p : A -> bool) (l : list A) (i : Z) : Z :=
  match l with
  | [] => (-1)%Z
  | x :: l' => if p x then i else findIndex_from p l' (i + 1)%Z
  end.

(** [l.findIndex(p)]: [-1] when no element satisfies [p]. *)
Definition findIndex (p : A -> bool) (l : list A) : Z := findIndex_from p l 0%Z.

(** A relative index of [slice]: negative ones count from the end, and
    the result is clamped to [0 .. length]. *)
Definition clamp (len i : Z) : Z :=
  if (i <? 0)%Z then Z.max (len + i) 0 else Z.min i len.

(** [l.slice(start, end)] *)
Definition slice (l : list A) (start end_ : Z) : list A :=
  let len := Z.of_nat (length l) in
  let k := clamp len start in
  let final := clamp len end_ in
  firstn (Z.to_nat (final - k)) (skipn (Z.to_nat k) l).

(** [l.some(p)] *)
Definition some (p : A -> bool) (l : list A) : bool := existsb p l.

(** [l[i]]: [undefined] out of range. *)
Definition index (l : list A) (i : nat) : option A := nth_error l i.

(** [l.reduce(f)] without an initial value: a [TypeError] ([None]) on the
    empty array, the single element on a one-element array. *)
Definition reduce (f : A -> A -> A) (l : list A) : option A :=
  match l with
  | [] => None
  | x :: l' => Some (fold_left f l' x)
  end.

(** [l.sort(compareFn)]. The order of the result is the one ECMAScript
    fixes for a consistent comparator: ascending for [compareFn], elements
    that compare equal kept in their original order (the sort is stable,
    as the language requires since ES2019 and as the engine the
    repository pins implements it). [x] moves behind [y] only when
    [compareFn(x, y) > 0]; a [NaN] result counts as 0. *)
Fixpoint sort_insert (compareFn : A -> A -> number) (x : A) (l : list A) : list A :=
  match l with
  | [] => [x]
  | y :: l' =>
      if positive (compareFn x y) then y :: sort_insert compareFn x l'
      else x :: y :: l'
  end.

Definition sort (compareFn : A -> A -> number) (l : list A) : list A :=
  fold_right (sort_insert compareFn) [] l.

End Arrays.

End Js.

(* ================================================================== *)
(** ** Objects with enumerable keys *)
(* ================================================================== *)

(** Keys with a decidable equality. *)
Class Key (K : Type) : Type := {
  key_eqb : K -> K -> bool;
  key_eqb_eq : forall a b, key_eqb a b = true <-> a = b
}.

Module Obj.
Section Obj.
Context {K V : Type} `{Key K}.

(** An object literal: its properties in the order [Object.keys] and
    [Object.values] enumerate them. *)
Definition t : Type := list (K * V).

Definition keys (o : t) : list K := map fst o.
Definition values (o : t) : list V := map snd o.

(** [o[k]]: [undefined] ([None]) for a key the object does not have. *)
Fixpoint get (o : t) (k : K) : option V :=
  match o with
  | [] => None
  | (k', v) :: o' => if key_eqb k' k then Some v else get o' k
  end.

(** [o[k] = v]: an existing property keeps its place, a new one is
    appended. *)
Fixpoint set (k : K) (v : V) (o : t) : t :=
  match o with
  | [] => [(k, v)]
  | (k', v') :: o' => if key_eqb k' k then (k', v) :: o' else (k', v') :: set k v o'
  end.

(** [o[k] = f(o[k])] for a property the object has (as in [o[k] += 1] on a
    record that has every key of its key type). *)
Fixpoint update (k : K) (f : V -> V) (o : t) : t :=
  match o with
  | [] => []
  | (k', v) :: o' => if key_eqb k' k then (k', f v) :: o' else (k', v) :: update k f o'
  end.
End Obj.
Arguments t : clear implicits.
End Obj.

(* ================================================================== *)
(** ** Exceptions *)
(* ================================================================== *)

Inductive Exception : Type :=
| InternalServerErrorException (message : string)
| TypeError.

Inductive Result (A : Type) : Type :=
| Throw (e : Exception)
| Return (a : A).
Arguments Throw {A} e.
Arguments Return {A} a.

Definition bind {A B : Type} (c : Result A) (k : A -> Result B) : Result B :=
  match c with
  | Throw e => Throw e
  | Return a => k a
  end.

Notation "x <- c ;; k" := (bind c (fun x => k))
  (at level 61, c at next level, right associativity).

(** [l.map(f)] for a callback that may throw: elements are visited from the
    left and the first exception ends the call. *)
Fixpoint mapM {A B : Type} (f : A -> Result B) (l : list A) : Result (list B) :=
  match l with
  | [] => Return []
  | x :: l' => y <- f x ;; ys <- mapM f l' ;; Return (y :: ys)
  end.

(* ================================================================== *)
(** ** Cards, hands and results *)
(* ================================================================== *)

(** [Suit]: the four keys of the [suits] record. *)
Inductive Suit : Type := clubs | diamonds | hearts | spades.

(** [Rank]: the thirteen keys ['2'] .. ['14'] of the [ranks] record. *)
Inductive Rank : Type :=
| R2 | R3 | R4 | R5 | R6 | R7 | R8 | R9 | R10 | R11 | R12 | R13 | R14.

(** [HandCategory]: the eleven keys of [categoryMap], in the order of the
    object literal. *)
Inductive HandCategory : Type :=
| RoyalFlush | StraightFlush | FourOfAKind | FullHouse | Flush | Straight
| ThreeOfAKind | TwoPairs | Pair | HighCard | WinViaFold.

Scheme Equality for Suit.
Scheme Equality for Rank.
Scheme Equality for HandCategory.

#[export] Instance Key_Suit : Key Suit :=
  {| key_eqb := Suit_beq;
     key_eqb_eq := fun a b => conj (@internal_Suit_dec_bl a b) (@internal_Suit_dec_lb a b) |}.

#[export] Instance Key_Rank : Key Rank :=
  {| key_eqb := Rank_beq;
     key_eqb_eq := fun a b => conj (@internal_Rank_dec_bl a b) (@internal_Rank_dec_lb a b) |}.

#[export] Instance Key_HandCategory : Key HandCategory :=
  {| key_eqb := HandCategory_beq;
     key_eqb_eq := fun a b =>
       conj (@internal_HandCategory_dec_bl a b) (@internal_HandCategory_dec_lb a b) |}.

(** A rank as the string the program holds: the value of [card.rank] and the
    key of the [ranks] record. *)
Definition rank_key (r : Rank) : string :=
  match r with
  | R2 => "2" | R3 => "3" | R4 => "4" | R5 => "5" | R6 => "6" | R7 => "7"
  | R8 => "8" | R9 => "9" | R10 => "10" | R11 => "11" | R12 => "12"
  | R13 => "13" | R14 => "14"
  end.

(** Modelled from the spec: the declaration of [Card] is in the shared type
    library, which is not part of the sources at hand; a card is an immutable
    pair of a rank and a suit. *)
Record Card : Type := { rank : Rank; suit : Suit }.

(** Modelled from the spec: [PlayerWithHand] is declared in
    winner-determiner.types, not part of the sources at hand; a player
    identifier paired with its hand, [null] ([None]) when there is none. *)
Record PlayerWithHand : Type := { playerId : string; hand : option (list Card) }.

(** [RankHandReponse]: what [rankHand] returns. The local variable [category]
    starts as the empty string, which is no [HandCategory]: [None] stands
    for it. *)
Record RankHandReponse : Type := {
  player : PlayerWithHand;
  category : option HandCategory;
  score : Js.number
}.

(* ================================================================== *)
(** ** rankHand *)
(* ================================================================== *)

Definition TEN_CARD_POSITION : Z := 8.

Definition suits0 : Obj.t Suit nat :=
  [(clubs, 0); (diamonds, 0); (hearts, 0); (spades, 0)].

Definition ranks0 : Obj.t Rank nat :=
  [(R2, 0); (R3, 0); (R4, 0); (R5, 0); (R6, 0); (R7, 0); (R8, 0); (R9, 0);
   (R10, 0); (R11, 0); (R12, 0); (R13, 0); (R14, 0)].

(** [player.hand.forEach(card => { suits[card.suit] += 1; ranks[card.rank] += 1 })] *)
Definition tally (hand : list Card) : Obj.t Suit nat * Obj.t Rank nat :=
  fold_left
    (fun '(suits, ranks) card =>
       (Obj.update (suit card) (fun n => n + 1) suits,
        Obj.update (rank card) (fun n => n + 1) ranks))
    hand (suits0, ranks0).

(** [x === n] for a property read [x] that may be [undefined]. *)
Definition strictEq (n : nat) (x : option nat) : bool :=
  match x with
  | Some m => m =? n
  | None => false
  end.

(** The truthiness of a property read of [categoryMap]. *)
Definition truthy (x : option bool) : bool :=
  match x with
  | Some b => b
  | None => false
  end.

(** [Boolean(count)] *)
Definition Boolean (count : nat) : bool := negb (count =? 0).

Definition firstCardIndex (ranks : Obj.t Rank nat) : Z :=
  Js.findIndex (fun index => index =? 1) (Obj.values ranks).

(** The object literal [categoryMap] and the two assignments that follow it. *)
Definition categoryMap (suits : Obj.t Suit nat) (ranks : Obj.t Rank nat)
    : Obj.t HandCategory bool :=
  let firstCardIndex := firstCardIndex ranks in
  let categoryMap :=
    [ (RoyalFlush, false);
      (StraightFlush, false);
      (FourOfAKind, Js.some (fun count => count =? 4) (Obj.values ranks));
      (FullHouse, length (filter Boolean (Obj.values ranks)) =? 2);
      (Flush, Js.some (fun count => count =? 5) (Obj.values suits));
      (Straight,
        length (filter (fun count => count =? 1)
                  (Js.slice (Obj.values ranks) firstCardIndex (firstCardIndex + 5)))
        =? 5);
      (ThreeOfAKind, Js.some (fun count => count =? 3) (Obj.values ranks));
      (TwoPairs, length (filter (fun count => count =? 2) (Obj.values ranks)) =? 2);
      (Pair, length (filter (fun count => count =? 2) (Obj.values ranks)) =? 1);
      (HighCard, true);
      (WinViaFold, false) ] in
  let categoryMap :=
    Obj.set StraightFlush
      (truthy (Obj.get categoryMap Flush) && truthy (Obj.get categoryMap Straight))
      categoryMap in
  let categoryMap :=
    Obj.set RoyalFlush
      (truthy (Obj.get categoryMap StraightFlush) && (firstCardIndex =? TEN_CARD_POSITION)%Z)
      categoryMap in
  categoryMap.

(** [keys.every((key, index) => { score = 1000 - index * 100; category = key;
    return !categoryMap[key] })], threading the two variables the callback
    assigns: the walk stops at the first key whose callback returns false. *)
Fixpoint every_key (categoryMap : Obj.t HandCategory bool) (keys : list HandCategory)
    (index : Z) (vars : Js.number * option HandCategory)
    : Js.number * option HandCategory :=
  match keys with
  | [] => vars
  | key :: keys' =>
      let vars := (Js.Num (1000 - index * 100), Some key) in
      if negb (truthy (Obj.get categoryMap key))
      then every_key categoryMap keys' (index + 1)%Z vars
      else vars
  end.

(** [Object.keys(ranks).filter(key => ranks[key] === n)], as the strings the
    keys are. *)
Definition keysWith (ranks : Obj.t Rank nat) (n : nat) : list string :=
  map rank_key (filter (fun key => strictEq n (Obj.get ranks key)) (Obj.keys ranks)).

(** [player.hand.forEach(card => { score += parseInt(card.rank) })] *)
Definition addCards (hand : list Card) (score : Js.number) : Js.number :=
  fold_left (fun score card => Js.add score (Js.parseInt (Some (rank_key (rank card)))))
    hand score.

(** "Add the values of the cards to the score". *)
Definition addValues (category : option HandCategory) (hand : list Card)
    (ranks : Obj.t Rank nat) (score : Js.number) : Result Js.number :=
  match category with
  | Some RoyalFlush | Some StraightFlush | Some FullHouse | Some Flush | Some Straight =>
      Return (addCards hand score)
  | Some FourOfAKind =>
      Return (Js.add score
                (Js.mul (Js.parseInt (Js.index (keysWith ranks 4) 0)) (Js.Num 4)))
  | Some ThreeOfAKind =>
      Return (Js.add score
                (Js.mul (Js.parseInt (Js.index (keysWith ranks 3) 0)) (Js.Num 3)))
  | Some TwoPairs =>
      let keys := keysWith ranks 2 in
      Return (Js.add score
                (Js.add (Js.mul (Js.parseInt (Js.index keys 0)) (Js.Num 2))
                        (Js.mul (Js.parseInt (Js.index keys 1)) (Js.Num 2))))
  | Some Pair =>
      match Js.reduce (fun a b => (a ++ b)%string) (keysWith ranks 2) with
      | Some key => Return (Js.add score (Js.mul (Js.parseInt (Some key)) (Js.Num 2)))
      | None => Throw TypeError
      end
  | _ => Return score
  end.

(** "Add the rank of the highest card to the score, which acts as the kicker". *)
Definition addKicker (category : option HandCategory) (ranks : Obj.t Rank nat)
    (score : Js.number) : Js.number :=
  match category with
  | Some TwoPairs | Some Pair | Some HighCard =>
      Js.add score (Js.Math_max (map Js.Number (keysWith ranks 1)))
  | _ => score
  end.

Definition rankHand (player : PlayerWithHand) : Result RankHandReponse :=
  match hand player with
  | None =>
      Throw (InternalServerErrorException "Attempting to rank a non-existant hand!")
  | Some hand =>
      let '(suits, ranks) := tally hand in
      let categoryMap := categoryMap suits ranks in
      let '(score, category) :=
        every_key categoryMap (Obj.keys categoryMap) 0 (Js.Num 0, None) in
      score <- addValues category hand ranks score ;;
      let score := addKicker category ranks score in
      Return {| player := player; category := category; score := score |}
  end.

(* ================================================================== *)
(** ** compareHands and the type guards *)
(* ================================================================== *)

Definition compareHands (players : list PlayerWithHand) : Result (list RankHandReponse) :=
  match players with
  | [player0] =>
      (* players.length === 1 *)
      Return [ {| player := player0; category := Some WinViaFold; score := Js.Num 10000 |} ]
  | _ =>
      ranked <- mapM rankHand players ;;
      let sortedHands :=
        Js.sort (fun handA handB => Js.sub (score handB) (score handA)) ranked in
      Return sortedHands
  end.

Definition playerHasTwoCards (playerCards : list Card) : bool :=
  length playerCards =? 2.

Definition tableHasFiveCards (tableCards : list Card) : bool :=
  length tableCards =? 5.

(* ================================================================== *)
(** ** The worked examples of the documentation *)
(* ================================================================== *)

Definition card (r : Rank) (s : Suit) : Card := {| rank := r; suit := s |}.

Definition playerOf (h : list Card) : PlayerWithHand :=
  {| playerId := "p"; hand := Some h |}.

Definition hand1 : list Card :=
  [card R4 clubs; card R4 diamonds; card R7 hearts; card R2 clubs; card R9 spades].

Definition hand2 : list Card :=
  [card R4 spades; card R4 hearts; card R7 hearts; card R2 clubs; card R11 spades].

(* ================================================================== *)
(** ** Vocabulary of the properties *)
(* ================================================================== *)

Definition all_suits : list Suit := [clubs; diamonds; hearts; spades].

Definition all_ranks : list Rank :=
  [R2; R3; R4; R5; R6; R7; R8; R9; R10; R11; R12; R13; R14].

(** The numeric value of a rank, 2 .. 14. *)
Definition rank_value (r : Rank) : Z :=
  match r with
  | R2 => 2 | R3 => 3 | R4 => 4 | R5 => 5 | R6 => 6 | R7 => 7 | R8 => 8
  | R9 => 9 | R10 => 10 | R11 => 11 | R12 => 12 | R13 => 13 | R14 => 14
  end.

(** The position of a rank among the keys of [ranks]. *)
Definition rank_index (r : Rank) : nat := Z.to_nat (rank_value r - 2).

(** How many cards of a hand have rank [r], suit [s]. *)
Definition count_rank (r : Rank) (h : list Card) : nat :=
  length (filter (fun c => Rank_beq (rank c) r) h).

Definition count_suit (s : Suit) (h : list Card) : nat :=
  length (filter (fun c => Suit_beq (suit c) s) h).

(** The sum of the values of the cards of a hand. *)
Definition hand_value (h : list Card) : Z :=
  fold_right (fun c acc => (rank_value (rank c) + acc)%Z) 0%Z h.

(** The records with given counts, in key order. *)
Definition suitsOf (w : list nat) : Obj.t Suit nat := combine all_suits w.
Definition ranksOf (v : list nat) : Obj.t Rank nat := combine all_ranks v.

Definition suit_counts (h : list Card) : list nat :=
  map (fun s => count_suit s h) all_suits.

Definition rank_counts (h : list Card) : list nat :=
  map (fun r => count_rank r h) all_ranks.

(** The ten categories a hand can be given, in priority order. *)
Definition priorityOrder : list HandCategory :=
  [RoyalFlush; StraightFlush; FourOfAKind; FullHouse; Flush; Straight;
   ThreeOfAKind; TwoPairs; Pair; HighCard].

(** The flag of a category in the [categoryMap] of a hand. *)
Definition flag (h : list Card) (c : HandCategory) : bool :=
  let '(suits, ranks) := tally h in truthy (Obj.get (categoryMap suits ranks) c).

(** The variables [score] and [category] after the walk over [categoryMap]. *)
Definition selected (h : list Card) : Js.number * option HandCategory :=
  let '(suits, ranks) := tally h in
  let categoryMap := categoryMap suits ranks in
  every_key categoryMap (Obj.keys categoryMap) 0 (Js.Num 0, None).

(** What [rankHand] computes from the two tallies and the hand. *)
Definition evaluate (suits : Obj.t Suit nat) (ranks : Obj.t Rank nat) (hand : list Card)
    : Result (option HandCategory * Js.number) :=
  let categoryMap := categoryMap suits ranks in
  let '(score, category) :=
    every_key categoryMap (Obj.keys categoryMap) 0 (Js.Num 0, None) in
  score <- addValues category hand ranks score ;;
  Return (category, addKicker category ranks score).

(** The order of the numbers that are not [NaN]. *)
Definition js_le (a b : Js.number) : Prop :=
  match a, b with
  | Js.NaN, _ | _, Js.NaN => False
  | Js.NegInfinity, _ | _, Js.PosInfinity => True
  | Js.Num x, Js.Num y => (x <= y)%Z
  | _, _ => False
  end.

(** *** Scores and errors *)

Definition js_lt (a b : Js.number) : Prop := js_le a b /\ a <> b.

(** A score that is an integer or [-Infinity]. *)
Definition comparable (x : Js.number) : Prop :=
  x = Js.NegInfinity \/ exists z, x = Js.Num z.

(** Identity of two numbers (of the model, not [===]: [NaN] is itself). *)
Definition same (a b : Js.number) : bool :=
  match a, b with
  | Js.NaN, Js.NaN | Js.NegInfinity, Js.NegInfinity | Js.PosInfinity, Js.PosInfinity => true
  | Js.Num x, Js.Num y => (x =? y)%Z
  | _, _ => false
  end.

Definition missingHand : Exception :=
  InternalServerErrorException "Attempting to rank a non-existant hand!".

(** [a] may stand before [b] in a list in descending order of score: its
    score is strictly greater, or the same. *)
Definition descending (a b : RankHandReponse) : Prop :=
  js_lt (score b) (score a) \/ score b = score a.

(** [out] is [ranked] sorted by descending score, the results of one and the
    same score in the order they have in [ranked]. *)
Definition sortedByScore (ranked out : list RankHandReponse) : Prop :=
  Permutation out ranked /\
  StronglySorted descending out /\
  forall s : Js.number,
    filter (fun r => same (score r) s) out = filter (fun r => same (score r) s) ranked.

(** *** Five-card hands by their rank counts *)

(** The lists of [k] counts that add up to [n]. *)
Fixpoint vectors (k n : nat) : list (list nat) :=
  match k with
  | 0 => if n =? 0 then [[]] else []
  | S k' => flat_map (fun c => map (cons c) (vectors k' (n - c))) (seq 0 (S n))
  end.

(** The sum of the card values of a hand with rank counts [v]. *)
Definition dot (v : list nat) : Z :=
  fold_right (fun '(r, n) acc => (rank_value r * Z.of_nat n + acc)%Z) 0%Z (ranksOf v).

(** Some hand with rank counts [v]. *)
Definition canon (v : list nat) : list Card :=
  flat_map (fun '(r, n) => repeat (card r clubs) n) (ranksOf v).

(** A suit tally with, without a suit of five cards. *)
Definition flushSuits (fl : bool) : Obj.t Suit nat :=
  suitsOf (if fl then [5; 0; 0; 0] else [0; 0; 0; 0]).

(** The flush flag of a hand. *)
Definition isFlush (h : list Card) : bool :=
  Js.some (fun count => count =? 5) (suit_counts h).

(** The category and the score of the hands with rank counts [v], with
    ([fl]) or without five cards of one suit. *)
Definition outcome (v : list nat) (fl : bool) : Result (option HandCategory * Js.number) :=
  evaluate (flushSuits fl) (ranksOf v) (canon v).

(** The count of rank [r] in a list of counts in key order. *)
Definition cnt (v : list nat) (r : Rank) : nat := nth (rank_index r) v 0.

(** *** Properties of the outcomes, as tests *)

(** Each test reads the outcome for rank counts [v] and flush flag [fl]; it is
    run on every list of thirteen counts that add up to five. *)

(** A rank of count 4 makes the hand 'four of a kind', scored 800 plus four
    times the rank, with exactly two ranks present. *)
Definition four_check (v : list nat) (fl : bool) : bool :=
  match outcome v fl with
  | Return (Some c, sc) =>
      forallb
        (fun r =>
           implb (cnt v r =? 4)
             (HandCategory_beq c FourOfAKind
              && same sc (Js.Num (800 + 4 * rank_value r))
              && (length (filter Boolean v) =? 2)))
        all_ranks
  | _ => false
  end.

(** A 'pair' has a single rank of count 2 and is scored 200 plus twice that
    rank plus the greatest rank of count 1. *)
Definition pair_check (v : list nat) (fl : bool) : bool :=
  match outcome v fl with
  | Return (Some Pair, sc) =>
      existsb
        (fun pr =>
           if cnt v pr =? 2 then
             forallb (fun q => implb (cnt v q =? 2) (Rank_beq q pr)) all_ranks
             && existsb
                  (fun k =>
                     if cnt v k =? 1 then
                       forallb
                         (fun q => implb (cnt v q =? 1) (rank_value q <=? rank_value k)%Z)
                         all_ranks
                       && same sc (Js.Num (200 + 2 * rank_value pr + rank_value k))
                     else false)
                  all_ranks
           else false)
        all_ranks
  | Return (Some _, _) => true
  | _ => false
  end.

(** A score is an integer in 101 .. 1060, and 1060 for the royal flush only;
    or it is [-Infinity], on counts that hold a 5, not for a royal flush. *)
Definition bound_check (v : list nat) (fl : bool) : bool :=
  match outcome v fl with
  | Return (Some c, Js.Num z) =>
      (100 <? z)%Z && (z <=? 1060)%Z
      && eqb (z =? 1060)%Z (HandCategory_beq c RoyalFlush)
  | Return (Some c, Js.NegInfinity) =>
      negb (forallb (fun n => n <=? 4) v) && negb (HandCategory_beq c RoyalFlush)
  | _ => false
  end.

(** A 'pair' has one count 2; with no count above 4, a 'two pairs', 'pair' or
    'high card' has a count 1 and an integer score. *)
Definition kicker_check (v : list nat) (fl : bool) : bool :=
  match outcome v fl with
  | Return (Some c, sc) =>
      implb (HandCategory_beq c Pair) (length (filter (fun n => n =? 2) v) =? 1)
      && implb
           (forallb (fun n => n <=? 4) v
            && (HandCategory_beq c TwoPairs || HandCategory_beq c Pair
                || HandCategory_beq c HighCard))
           (existsb (fun n => n =? 1) v
            && match sc with Js.Num _ => true | _ => false end)
  | _ => false
  end.

(** *** The straight, in the words of the specification *)

(** The straight flag in the words of the specification: there is a lowest
    rank with count 1, the anchor, and each of the five ranks anchor,
    anchor + 1, ..., anchor + 4 is a rank of count exactly 1. *)
Definition straight_spec (h : list Card) : Prop :=
  exists a : Rank,
    count_rank a h = 1 /\
    (forall r, (rank_value r < rank_value a)%Z -> count_rank r h <> 1) /\
    (forall k : Z, (0 <= k < 5)%Z ->
                   exists r, rank_value r = (rank_value a + k)%Z /\ count_rank r h = 1).

(** *** Sample hands *)

Definition quads : list Card :=
  [card R9 clubs; card R9 diamonds; card R9 hearts; card R9 spades; card R3 clubs].

Definition royal : list Card :=
  [card R14 hearts; card R10 hearts; card R13 hearts; card R11 hearts; card R12 hearts].

Definition wheel : list Card :=
  [card R14 spades; card R2 hearts; card R3 clubs; card R4 diamonds; card R5 clubs].

Definition fiveTwos : list Card :=
  [card R2 clubs; card R2 diamonds; card R2 hearts; card R2 spades; card R2 clubs].

(** *** Further vocabulary: categories, ranges and tests *)

(** The position of a category among the keys of [categoryMap]. *)
Definition categoryIndex (c : HandCategory) : nat :=
  match c with
  | RoyalFlush => 0 | StraightFlush => 1 | FourOfAKind => 2 | FullHouse => 3
  | Flush => 4 | Straight => 5 | ThreeOfAKind => 6 | TwoPairs => 7 | Pair => 8
  | HighCard => 9 | WinViaFold => 10
  end.

(** The position of the category of a result (that of the empty string, which
    no result has, taken as 0). *)
Definition resultIndex (r : RankHandReponse) : nat :=
  match category r with
  | Some c => categoryIndex c
  | None => 0
  end.

(** The least and the greatest integer score of the five-card hands of a
    category. *)
Definition scoreRange (c : HandCategory) : Z * Z :=
  match c with
  | RoyalFlush => (1060, 1060)
  | StraightFlush => (920, 955)
  | FourOfAKind => (808, 856)
  | FullHouse => (712, 768)
  | Flush => (610, 670)
  | Straight => (520, 560)
  | ThreeOfAKind => (406, 442)
  | TwoPairs => (314, 366)
  | Pair => (209, 241)
  | HighCard => (107, 114)
  | WinViaFold => (10000, 10000)
  end%Z.

(** Some rank has count [n]. *)
Definition hasCount (v : list nat) (n : nat) : bool :=
  existsb (fun r => cnt v r =? n) all_ranks.

Definition memCat (c : HandCategory) (l : list HandCategory) : bool :=
  existsb (HandCategory_beq c) l.

(** 'three of a kind' is the category exactly of the counts with a 3 and no 2,
    not of one suit; its score is 400 plus three times the rank of count 3. *)
Definition trips_check (v : list nat) (fl : bool) (c : HandCategory) (sc : Js.number)
    : bool :=
  eqb (HandCategory_beq c ThreeOfAKind)
      (hasCount v 3 && negb (hasCount v 2) && negb fl)
  && (if HandCategory_beq c ThreeOfAKind
      then forallb
             (fun t => implb (cnt v t =? 3) (same sc (Js.Num (400 + 3 * rank_value t))))
             all_ranks
      else true).

(** 'full house' is the category exactly of the counts with a 3 and a 2; its
    score is 700 plus three times the one rank plus twice the other. *)
Definition full_house_check (v : list nat) (fl : bool) (c : HandCategory)
    (sc : Js.number) : bool :=
  eqb (HandCategory_beq c FullHouse) (hasCount v 3 && hasCount v 2)
  && (if HandCategory_beq c FullHouse
      then forallb
             (fun t =>
                if cnt v t =? 3
                then forallb
                       (fun p =>
                          implb (cnt v p =? 2)
                            (same sc
                               (Js.Num (700 + 3 * rank_value t + 2 * rank_value p))))
                       all_ranks
                else true)
             all_ranks
      else true).

(** 'two pairs' is the category exactly of the counts with two 2s, not of one
    suit; its score is 300 plus twice each of the two ranks plus the rank of
    count 1. *)
Definition two_pairs_check (v : list nat) (fl : bool) (c : HandCategory)
    (sc : Js.number) : bool :=
  eqb (HandCategory_beq c TwoPairs)
      (negb fl
       && existsb
            (fun a =>
               if cnt v a =? 2
               then existsb (fun b => (cnt v b =? 2) && negb (Rank_beq a b)) all_ranks
               else false)
            all_ranks)
  && (if HandCategory_beq c TwoPairs
      then existsb
             (fun a =>
                if cnt v a =? 2
                then existsb
                       (fun b =>
                          if (cnt v b =? 2) && (rank_value a <? rank_value b)%Z
                          then existsb
                                 (fun k =>
                                    (cnt v k =? 1)
                                    && same sc
                                         (Js.Num (300 + 2 * rank_value a
                                                  + 2 * rank_value b + rank_value k)))
                                 all_ranks
                          else false)
                       all_ranks
                else false)
             all_ranks
      else true).

(** A 'high card' is not of one suit; either a rank has count 5 and the score
    is [-Infinity], or no rank has a count above 1 and the score is 100 plus
    the greatest rank present. *)
Definition high_card_check (v : list nat) (fl : bool) (c : HandCategory)
    (sc : Js.number) : bool :=
  if HandCategory_beq c HighCard
  then negb fl
       && (if hasCount v 5
           then same sc Js.NegInfinity
           else forallb (fun r => cnt v r <=? 1) all_ranks
                && existsb
                     (fun k =>
                        (cnt v k =? 1)
                        && forallb
                             (fun q =>
                                implb (1 <=? cnt v q) (rank_value q <=? rank_value k)%Z)
                             all_ranks
                        && same sc (Js.Num (100 + rank_value k)))
                     all_ranks)
  else true.

(** An integer score is in the range of its category; [-Infinity] is the
    score of a 'high card' only. *)
Definition range_check (v : list nat) (fl : bool) (c : HandCategory) (sc : Js.number)
    : bool :=
  match sc with
  | Js.Num z => (fst (scoreRange c) <=? z)%Z && (z <=? snd (scoreRange c))%Z
  | Js.NegInfinity => HandCategory_beq c HighCard
  | _ => false
  end.

(** A 'royal flush' has the counts of 10, 11, 12, 13, 14 once each, of one
    suit. *)
Definition royal_check (v : list nat) (fl : bool) (c : HandCategory) (sc : Js.number)
    : bool :=
  implb (HandCategory_beq c RoyalFlush)
        (fl && forallb
                 (fun r => cnt v r =? (if (10 <=? rank_value r)%Z then 1 else 0))
                 all_ranks).

(** The three categories of flushes are of one suit, and are the categories
    of the counts of one suit with no rank twice. *)
Definition suit_check (v : list nat) (fl : bool) (c : HandCategory) (sc : Js.number)
    : bool :=
  implb (memCat c [RoyalFlush; StraightFlush; Flush]) fl
  && implb (fl && forallb (fun r => cnt v r <=? 1) all_ranks)
           (memCat c [RoyalFlush; StraightFlush; Flush]).

(** The five ranks from [a] on have count 1 each, the others count 0. *)
Definition isRun (v : list nat) (a : Rank) : bool :=
  (rank_value a <=? 10)%Z
  && forallb
       (fun r =>
          cnt v r =? (if (rank_value a <=? rank_value r)%Z
                         && (rank_value r <=? rank_value a + 4)%Z
                      then 1 else 0))
       all_ranks.

(** The three categories of straights are the categories exactly of the
    counts that are a run of five ranks; the score is the base score of the
    category plus five times the lowest rank plus 10. *)
Definition straight_check (v : list nat) (fl : bool) (c : HandCategory) (sc : Js.number)
    : bool :=
  eqb (memCat c [RoyalFlush; StraightFlush; Straight]) (existsb (isRun v) all_ranks)
  && (if memCat c [RoyalFlush; StraightFlush; Straight]
      then forallb
             (fun a =>
                implb (isRun v a)
                  (same sc
                     (Js.Num (1000 - 100 * Z.of_nat (categoryIndex c)
                              + 5 * rank_value a + 10))))
             all_ranks
      else true).

(** 'four of a kind' is the category exactly of the counts with a 4; 'pair'
    that of the counts with a 2, no other 2 and no 3, not of one suit. *)
Definition four_pair_check (v : list nat) (fl : bool) (c : HandCategory) (sc : Js.number)
    : bool :=
  eqb (HandCategory_beq c FourOfAKind) (hasCount v 4)
  && eqb (HandCategory_beq c Pair)
         (negb fl && negb (hasCount v 3)
          && existsb
               (fun a =>
                  if cnt v a =? 2
                  then forallb (fun b => implb (cnt v b =? 2) (Rank_beq b a)) all_ranks
                  else false)
               all_ranks).

Definition all_checks (v : list nat) (fl : bool) : bool :=
  match outcome v fl with
  | Return (Some c, sc) =>
      trips_check v fl c sc && full_house_check v fl c sc && two_pairs_check v fl c sc
      && high_card_check v fl c sc && range_check v fl c sc && royal_check v fl c sc
      && suit_check v fl c sc && straight_check v fl c sc && four_pair_check v fl c sc
  | _ => false
  end.

(** The ranks of a hand are the five ranks from [a] on, once each. *)
Definition runOf (h : list Card) (a : Rank) : Prop :=
  (rank_value a <= 10)%Z /\
  forall r, count_rank r h
            = if ((rank_value a <=? rank_value r) && (rank_value r <=? rank_value a + 4))%Z
              then 1 else 0.

(** What [rankHand] returns on a hand of five cards. *)
Definition ranksFive (r : RankHandReponse) : Prop :=
  exists (p : PlayerWithHand) (h : list Card),
    hand p = Some h /\ length h = 5 /\ rankHand p = Return r.

(** The result of [rankHand] on a player, a result of no category and no
    score on a player without a hand. *)
Definition rankedOf (p : PlayerWithHand) : RankHandReponse :=
  match rankHand p with
  | Return r => r
  | Throw _ => {| player := p; category := None; score := Js.NaN |}
  end.

(** *** More sample hands *)

Definition trips : list Card :=
  [card R7 clubs; card R7 diamonds; card R7 hearts; card R14 spades; card R3 clubs].

Definition fullHouse : list Card :=
  [card R2 clubs; card R2 diamonds; card R2 hearts; card R14 spades; card R14 clubs].

Definition twoPairs : list Card :=
  [card R2 clubs; card R2 hearts; card R5 spades; card R5 hearts; card R9 clubs].

Definition highCard : list Card :=
  [card R2 clubs; card R5 hearts; card R9 spades; card R11 hearts; card R13 clubs].

Definition flushHand : list Card :=
  [card R2 clubs; card R5 clubs; card R9 clubs; card R11 clubs; card R13 clubs].

Definition straightHand : list Card :=
  [card R7 clubs; card R5 hearts; card R6 spades; card R9 hearts; card R8 clubs].

(* ================================================================== *)
(** ** Numbers and keys *)
(* ================================================================== *)

Lemma parseInt_rank_key (r : Rank) :
  Js.parseInt (Some (rank_key r)) = Js.Num (rank_value r).
Proof. destruct r; reflexivity. Qed.

Lemma Number_rank_key (r : Rank) : Js.Number (rank_key r) = Js.Num (rank_value r).
Proof. destruct r; reflexivity. Qed.

Lemma Rank_beq_true (r r' : Rank) : Rank_beq r r' = true <-> r = r'.
Proof. exact (key_eqb_eq r r'). Qed.

Lemma all_ranks_complete (r : Rank) : In r all_ranks.
Proof. destruct r; simpl; tauto. Qed.

Lemma all_suits_complete (s : Suit) : In s all_suits.
Proof. destruct s; simpl; tauto. Qed.

(* ================================================================== *)
(** ** The tally builder *)
(* ================================================================== *)

Lemma addCards_value (h : list Card) (s : Z) :
  addCards h (Js.Num s) = Js.Num (s + hand_value h).
Proof.
  unfold addCards. revert s.
  induction h as [|c h IH]; intros s; cbn [fold_left hand_value fold_right].
  - f_equal. lia.
  - rewrite parseInt_rank_key. cbn [Js.add]. rewrite IH. f_equal.
    unfold hand_value. lia.
Qed.

Lemma tally_from (h : list Card) (f : Suit -> nat) (g : Rank -> nat) :
  fold_left
    (fun '(suits, ranks) card =>
       (Obj.update (suit card) (fun n => n + 1) suits,
        Obj.update (rank card) (fun n => n + 1) ranks))
    h (suitsOf (map f all_suits), ranksOf (map g all_ranks))
  = (suitsOf (map (fun s => f s + count_suit s h) all_suits),
     ranksOf (map (fun r => g r + count_rank r h) all_ranks)).
Proof.
  revert f g. induction h as [|c h IH]; intros f g.
  - cbn [fold_left]. f_equal; unfold suitsOf, ranksOf; f_equal; apply map_ext;
      intros a; unfold count_suit, count_rank; simpl; lia.
  - cbn [fold_left].
    replace (Obj.update (suit c) (fun n => n + 1) (suitsOf (map f all_suits)))
      with (suitsOf (map (fun s => if Suit_beq (suit c) s then f s + 1 else f s) all_suits))
      by (destruct (suit c); reflexivity).
    replace (Obj.update (rank c) (fun n => n + 1) (ranksOf (map g all_ranks)))
      with (ranksOf (map (fun r => if Rank_beq (rank c) r then g r + 1 else g r) all_ranks))
      by (destruct (rank c); reflexivity).
    rewrite IH. unfold suitsOf, ranksOf, count_suit, count_rank.
    f_equal; f_equal; apply map_ext; intros a; simpl.
    + destruct (Suit_beq (suit c) a); simpl; lia.
    + destruct (Rank_beq (rank c) a); simpl; lia.
Qed.

(** The tally builder counts: each record holds, for every key, the number of
    cards of the hand with that suit, that rank. *)
Lemma tally_counts (h : list Card) :
  tally h = (suitsOf (suit_counts h), ranksOf (rank_counts h)).
Proof.
  unfold tally. change suits0 with (suitsOf (map (fun _ => 0) all_suits)).
  change ranks0 with (ranksOf (map (fun _ => 0) all_ranks)).
  rewrite tally_from. reflexivity.
Qed.

(* ================================================================== *)
(** ** Objects: reading the keys that hold a given value *)
(* ================================================================== *)

Section ObjFacts.
Context {K V : Type} `{Key K}.

Lemma key_eqb_refl (k : K) : key_eqb k k = true.
Proof. now apply key_eqb_eq. Qed.

Lemma key_eqb_neq (k k' : K) : k <> k' -> key_eqb k k' = false.
Proof.
  intros N. destruct (key_eqb k k') eqn:E; [|reflexivity].
  apply key_eqb_eq in E. contradiction.
Qed.

(** Filtering the keys of an object on the value read under each key selects
    the properties whose value passes the test, in order. *)
Lemma filter_keys_get (p : option V -> bool) (o : Obj.t K V) :
  NoDup (Obj.keys o) ->
  filter (fun k => p (Obj.get o k)) (Obj.keys o)
  = Obj.keys (filter (fun kv => p (Some (snd kv))) o).
Proof.
  induction o as [|[k v] o IH]; intros ND; [reflexivity|].
  cbn [Obj.keys map fst] in ND. inversion ND as [|? ? Hk ND']; subst.
  cbn [Obj.keys map fst filter Obj.get snd]. rewrite key_eqb_refl.
  assert (E : filter (fun k0 => p (if key_eqb k k0 then Some v else Obj.get o k0))
                (map fst o)
              = filter (fun k0 => p (Obj.get o k0)) (map fst o)).
  { apply filter_ext_in. intros k0 Hin.
    rewrite key_eqb_neq; [reflexivity|]. intros ->. contradiction. }
  rewrite E. fold (Obj.keys o). rewrite (IH ND').
  destruct (p (Some v)); reflexivity.
Qed.

End ObjFacts.

Lemma keys_ranksOf (v : list nat) : NoDup (Obj.keys (ranksOf v)).
Proof.
  assert (ND : NoDup all_ranks).
  { unfold all_ranks. repeat (constructor; [simpl; intuition discriminate|]).
    constructor. }
  unfold ranksOf, Obj.keys. revert v. generalize all_ranks ND.
  induction l as [|k l IH]; intros ND' v; [constructor|].
  destruct v as [|x v]; [constructor|]. inversion ND' as [|? ? Hk ND'']; subst.
  simpl. constructor; [|now apply IH].
  intros Hin. apply Hk. apply in_map_iff in Hin. destruct Hin as [[k' y] [E Hin]].
  simpl in E. subst. now apply in_combine_l in Hin.
Qed.

(** The keys of [ranks] whose count is [n]: as many as there are counts equal
    to [n], each the string of a rank with that count. *)
Lemma keysWith_ranks (v : list nat) (n : nat) :
  exists rs : list Rank,
    keysWith (ranksOf v) n = map rank_key rs /\
    length rs = length (filter (fun count => count =? n) (Obj.values (ranksOf v))) /\
    rs = map fst (filter (fun kv => snd kv =? n) (ranksOf v)).
Proof.
  exists (map fst (filter (fun kv => snd kv =? n) (ranksOf v))).
  unfold keysWith.
  rewrite (filter_keys_get (fun x => strictEq n x) (ranksOf v) (keys_ranksOf v)).
  split; [reflexivity|]. split; [|reflexivity].
  unfold Obj.values. rewrite filter_map_swap. now rewrite !length_map.
Qed.

Lemma some_filter_length {A : Type} (p : A -> bool) (l : list A) :
  Js.some p l = true <-> 1 <= length (filter p l).
Proof.
  unfold Js.some. induction l as [|x l IH]; simpl.
  - split; [discriminate|lia].
  - destruct (p x); simpl; [split; [lia|reflexivity]|exact IH].
Qed.

(** [Math.max] of numbers that are integers is an integer, or [-Infinity] when
    there is none. *)
Lemma Math_max_values (rs : list Rank) :
  Js.Math_max (map Js.Number (map rank_key rs))
  = match rs with
    | [] => Js.NegInfinity
    | r :: rs' => Js.Num (fold_left Z.max (map rank_value rs') (rank_value r))
    end.
Proof.
  unfold Js.Math_max. destruct rs as [|r rs]; [reflexivity|].
  cbn [map fold_left]. rewrite Number_rank_key. cbn [Js.max2].
  generalize (rank_value r). induction rs as [|r' rs IH]; intros z; [reflexivity|].
  cbn [map fold_left]. rewrite Number_rank_key. cbn [Js.max2]. apply IH.
Qed.

(* ================================================================== *)
(** ** The priority selector *)
(* ================================================================== *)

(** [categoryMap] after the two assignments, key by key. *)
Lemma categoryMap_flags (suits : Obj.t Suit nat) (ranks : Obj.t Rank nat) :
  categoryMap suits ranks =
  let values := Obj.values ranks in
  let flush := Js.some (fun count => count =? 5) (Obj.values suits) in
  let straight :=
    length (filter (fun count => count =? 1)
              (Js.slice values (firstCardIndex ranks) (firstCardIndex ranks + 5))) =? 5 in
  [ (RoyalFlush, (flush && straight) && (firstCardIndex ranks =? TEN_CARD_POSITION)%Z);
    (StraightFlush, flush && straight);
    (FourOfAKind, Js.some (fun count => count =? 4) values);
    (FullHouse, length (filter Boolean values) =? 2);
    (Flush, flush);
    (Straight, straight);
    (ThreeOfAKind, Js.some (fun count => count =? 3) values);
    (TwoPairs, length (filter (fun count => count =? 2) values) =? 2);
    (Pair, length (filter (fun count => count =? 2) values) =? 1);
    (HighCard, true);
    (WinViaFold, false) ].
Proof. reflexivity. Qed.

Ltac stop_at n c :=
  exists n, c; repeat split;
  intros j c' Hj E;
  do 10 (destruct j as [|j]; [first [lia | injection E as <-; reflexivity]|]); lia.

(** The walk over an object with the eleven keys of [categoryMap], whose
    ['high card'] is true: it stops at the first key whose flag is true, with
    the base score of that key's position. *)
Lemma every_key_first (b0 b1 b2 b3 b4 b5 b6 b7 b8 : bool) :
  let cm := [ (RoyalFlush, b0); (StraightFlush, b1); (FourOfAKind, b2); (FullHouse, b3);
              (Flush, b4); (Straight, b5); (ThreeOfAKind, b6); (TwoPairs, b7);
              (Pair, b8); (HighCard, true); (WinViaFold, false) ] in
  exists (i : nat) (c : HandCategory),
    every_key cm (Obj.keys cm) 0 (Js.Num 0, None)
    = (Js.Num (1000 - 100 * Z.of_nat i), Some c) /\
    nth_error priorityOrder i = Some c /\
    truthy (Obj.get cm c) = true /\
    (forall j c', j < i -> nth_error priorityOrder j = Some c' ->
                  truthy (Obj.get cm c') = false).
Proof.
  intros cm. subst cm.
  destruct b0; [stop_at 0 RoyalFlush|].
  destruct b1; [stop_at 1 StraightFlush|].
  destruct b2; [stop_at 2 FourOfAKind|].
  destruct b3; [stop_at 3 FullHouse|].
  destruct b4; [stop_at 4 Flush|].
  destruct b5; [stop_at 5 Straight|].
  destruct b6; [stop_at 6 ThreeOfAKind|].
  destruct b7; [stop_at 7 TwoPairs|].
  destruct b8; [stop_at 8 Pair|].
  stop_at 9 HighCard.
Qed.

(* ================================================================== *)
(** ** rankHand returns, whatever the hand *)
(* ================================================================== *)

Lemma comparable_add_kicker (z : Z) (rs : list Rank) :
  comparable (Js.add (Js.Num z) (Js.Math_max (map Js.Number (map rank_key rs)))).
Proof.
  rewrite Math_max_values. destruct rs; simpl; [left|right; eexists]; reflexivity.
Qed.

Ltac cases_index i Hn :=
  destruct i as [|i];
  [ first [discriminate Hn | injection Hn as <-]
  | first [discriminate Hn | cases_index i Hn] ].

Ltac flag_of H :=
  lazy [Obj.get key_eqb Key_HandCategory HandCategory_beq truthy] in H;
  try apply Nat.eqb_eq in H; try apply some_filter_length in H.

(** From the tallies on, the evaluation selects the first category of the
    priority order whose flag is true and returns a score; no step throws. *)
Lemma evaluate_returns (suits : Obj.t Suit nat) (v : list nat) (h : list Card) :
  let cm := categoryMap suits (ranksOf v) in
  exists (i : nat) (c : HandCategory) (sc : Js.number),
    every_key cm (Obj.keys cm) 0 (Js.Num 0, None)
    = (Js.Num (1000 - 100 * Z.of_nat i), Some c) /\
    nth_error priorityOrder i = Some c /\
    truthy (Obj.get cm c) = true /\
    (forall j c', j < i -> nth_error priorityOrder j = Some c' ->
                  truthy (Obj.get cm c') = false) /\
    evaluate suits (ranksOf v) h = Return (Some c, sc) /\
    comparable sc.
Proof.
  intros cm. unfold evaluate. fold cm.
  pose proof (categoryMap_flags suits (ranksOf v)) as CM. cbv zeta in CM. fold cm in CM.
  rewrite CM.
  match goal with
  | |- context [every_key [(RoyalFlush, ?b0); (StraightFlush, ?b1); (FourOfAKind, ?b2);
                           (FullHouse, ?b3); (Flush, ?b4); (Straight, ?b5);
                           (ThreeOfAKind, ?b6); (TwoPairs, ?b7); (Pair, ?b8); _; _]] =>
      destruct (every_key_first b0 b1 b2 b3 b4 b5 b6 b7 b8) as (i & c & E & Hn & Ht & Hj)
  end.
  rewrite E. exists i, c.
  destruct (keysWith_ranks v 1) as (r1 & K1 & L1 & _).
  destruct (keysWith_ranks v 2) as (r2 & K2 & L2 & _).
  destruct (keysWith_ranks v 3) as (r3 & K3 & L3 & _).
  destruct (keysWith_ranks v 4) as (r4 & K4 & L4 & _).
  assert (R : exists sc,
             (score <- addValues (Some c) h (ranksOf v)
                         (Js.Num (1000 - 100 * Z.of_nat i)) ;;
              Return (Some c, addKicker (Some c) (ranksOf v) score))
             = Return (Some c, sc) /\ comparable sc).
  { cases_index i Hn;
      cbn [addValues addKicker bind]; try rewrite addCards_value;
      try (eexists; split; [reflexivity|right; eexists; reflexivity]).
    - (* four of a kind *)
      flag_of Ht. rewrite <- L4 in Ht. rewrite K4.
      destruct r4 as [|r r4]; [simpl in Ht; lia|].
      cbn [map Js.index nth_error]. rewrite parseInt_rank_key.
      eexists; split; [reflexivity|right; eexists; reflexivity].
    - (* three of a kind *)
      flag_of Ht. rewrite <- L3 in Ht. rewrite K3.
      destruct r3 as [|r r3]; [simpl in Ht; lia|].
      cbn [map Js.index nth_error]. rewrite parseInt_rank_key.
      eexists; split; [reflexivity|right; eexists; reflexivity].
    - (* two pairs *)
      flag_of Ht. rewrite <- L2 in Ht. rewrite K2, K1.
      destruct r2 as [|r [|r' r2]]; try discriminate Ht.
      cbn [map Js.index nth_error]. rewrite !parseInt_rank_key.
      eexists; split; [reflexivity|]. cbn [Js.mul Js.add]. apply comparable_add_kicker.
    - (* pair *)
      flag_of Ht. rewrite <- L2 in Ht. rewrite K2, K1.
      destruct r2 as [|r [|r' r2]]; try discriminate Ht.
      cbn [map Js.reduce fold_left bind]. rewrite parseInt_rank_key.
      eexists; split; [reflexivity|]. cbn [Js.mul Js.add]. apply comparable_add_kicker.
    - (* high card *)
      rewrite K1. eexists; split; [reflexivity|]. apply comparable_add_kicker. }
  destruct R as (sc & R & Hsc). exists sc. rewrite <- CM. repeat split; try assumption.
Qed.

(** [rankHand] as the evaluation of the tallies of the hand. *)
Lemma rankHand_evaluate (p : PlayerWithHand) (h : list Card) :
  hand p = Some h ->
  rankHand p =
  (r <- evaluate (suitsOf (suit_counts h)) (ranksOf (rank_counts h)) h ;;
   Return {| player := p; category := fst r; score := snd r |}).
Proof.
  intros Hh. unfold rankHand, evaluate. rewrite Hh, tally_counts.
  destruct (every_key _ _ _ _) as [sc c].
  destruct (addValues c h (ranksOf (rank_counts h)) sc); reflexivity.
Qed.

(** Whatever the hand, [rankHand] returns a result for the player, with a
    category among the ten of the priority order and a comparable score. *)
Lemma rankHand_returns (p : PlayerWithHand) (h : list Card) :
  hand p = Some h ->
  exists (c : HandCategory) (sc : Js.number),
    rankHand p = Return {| player := p; category := Some c; score := sc |} /\
    In c priorityOrder /\ comparable sc.
Proof.
  intros Hh. rewrite (rankHand_evaluate p Hh).
  destruct (evaluate_returns (suitsOf (suit_counts h)) (rank_counts h) h)
    as (i & c & sc & _ & Hn & _ & _ & E & Hsc).
  rewrite E. exists c, sc. split; [reflexivity|]. split; [|assumption].
  eapply nth_error_In; eassumption.
Qed.

(* ================================================================== *)
(** ** Five-card hands: the rank tallies to consider *)
(* ================================================================== *)

Lemma vectors_complete (k n : nat) (v : list nat) :
  length v = k -> list_sum v = n -> In v (vectors k n).
Proof.
  revert n v. induction k as [|k IH]; intros n v Hl Hs.
  - destruct v; [|discriminate Hl]. simpl in Hs. subst n. simpl. now left.
  - destruct v as [|c v]; [discriminate Hl|]. simpl in Hl, Hs.
    cbn [vectors]. apply in_flat_map. exists c. split.
    + apply in_seq. lia.
    + apply in_map. apply IH; lia.
Qed.

Lemma rank_counts_length (h : list Card) : length (rank_counts h) = 13.
Proof. reflexivity. Qed.

Lemma rank_counts_sum (h : list Card) : list_sum (rank_counts h) = length h.
Proof.
  induction h as [|c h IH]; [reflexivity|].
  cbn [length]. rewrite <- IH. unfold rank_counts, count_rank, all_ranks.
  cbn [map filter list_sum fold_right].
  destruct (rank c); cbn [Rank_beq length]; lia.
Qed.

Lemma hand_value_dot (h : list Card) : hand_value h = dot (rank_counts h).
Proof.
  induction h as [|c h IH]; [reflexivity|].
  cbn [hand_value fold_right]. fold (hand_value h). rewrite IH.
  unfold dot, ranksOf, rank_counts, count_rank, all_ranks.
  cbn [map filter combine fold_right].
  destruct (rank c); cbn [Rank_beq length rank_value]; lia.
Qed.

Lemma hand_value_app (h h' : list Card) :
  hand_value (h ++ h') = (hand_value h + hand_value h')%Z.
Proof.
  unfold hand_value. induction h as [|c h IH]; simpl; [reflexivity|].
  rewrite IH. lia.
Qed.

Lemma hand_value_repeat (r : Rank) (s : Suit) (n : nat) :
  hand_value (repeat (card r s) n) = (rank_value r * Z.of_nat n)%Z.
Proof.
  unfold hand_value. induction n as [|n IH]; [simpl; lia|].
  cbn [repeat fold_right]. rewrite IH. cbn [card rank]. lia.
Qed.

Lemma hand_value_canon (v : list nat) : hand_value (canon v) = dot v.
Proof.
  unfold canon, dot. induction (ranksOf v) as [|[r n] o IH]; [reflexivity|].
  cbn [flat_map fold_right]. rewrite hand_value_app, hand_value_repeat, IH.
  reflexivity.
Qed.

(** The evaluation reads the suit tally through the flush flag only. *)
Lemma evaluate_flush (suits suits' : Obj.t Suit nat) (ranks : Obj.t Rank nat)
    (h : list Card) :
  Js.some (fun count => count =? 5) (Obj.values suits)
  = Js.some (fun count => count =? 5) (Obj.values suits') ->
  evaluate suits ranks h = evaluate suits' ranks h.
Proof.
  intros E. unfold evaluate. rewrite !categoryMap_flags. cbv zeta. rewrite E.
  reflexivity.
Qed.

(** The evaluation reads the hand through the sum of its card values only. *)
Lemma evaluate_hand (suits : Obj.t Suit nat) (ranks : Obj.t Rank nat)
    (h h' : list Card) :
  hand_value h = hand_value h' ->
  evaluate suits ranks h = evaluate suits ranks h'.
Proof.
  intros E. unfold evaluate. rewrite !categoryMap_flags. cbv zeta.
  match goal with
  | |- context [every_key [(RoyalFlush, ?b0); (StraightFlush, ?b1); (FourOfAKind, ?b2);
                           (FullHouse, ?b3); (Flush, ?b4); (Straight, ?b5);
                           (ThreeOfAKind, ?b6); (TwoPairs, ?b7); (Pair, ?b8); _; _]] =>
      destruct (every_key_first b0 b1 b2 b3 b4 b5 b6 b7 b8) as (i & c & Ek & _)
  end.
  rewrite Ek. destruct c; cbn [addValues]; rewrite ?addCards_value, ?E; reflexivity.
Qed.

Lemma suit_counts_values (h : list Card) :
  Obj.values (suitsOf (suit_counts h)) = suit_counts h.
Proof. reflexivity. Qed.

(** [rankHand] on a hand is the outcome for its rank counts and flush flag. *)
Lemma rankHand_outcome (p : PlayerWithHand) (h : list Card) :
  hand p = Some h ->
  rankHand p =
  (r <- outcome (rank_counts h) (isFlush h) ;;
   Return {| player := p; category := fst r; score := snd r |}).
Proof.
  intros Hh. rewrite (rankHand_evaluate p Hh). unfold outcome.
  rewrite (evaluate_flush (suitsOf (suit_counts h)) (flushSuits (isFlush h))).
  - rewrite (evaluate_hand _ _ h (canon (rank_counts h))); [reflexivity|].
    now rewrite hand_value_canon, hand_value_dot.
  - rewrite suit_counts_values. fold (isFlush h). now destruct (isFlush h).
Qed.

(** A property of the outcomes that holds for every list of thirteen counts
    adding up to five holds for every hand of five cards. *)
Lemma five_cards (P : list nat -> bool -> bool) :
  forallb (fun v => P v true && P v false) (vectors 13 5) = true ->
  forall h : list Card, length h = 5 -> P (rank_counts h) (isFlush h) = true.
Proof.
  intros HP h Hl. rewrite forallb_forall in HP.
  specialize (HP (rank_counts h)
                (@vectors_complete 13 5 (rank_counts h) (rank_counts_length h)
                   (eq_trans (rank_counts_sum h) Hl))).
  apply andb_true_iff in HP. destruct (isFlush h); tauto.
Qed.

(* ================================================================== *)
(** ** Errors *)
(* ================================================================== *)

Lemma rankHand_null (p : PlayerWithHand) : hand p = None -> rankHand p = Throw missingHand.
Proof. intros E. unfold rankHand. now rewrite E. Qed.

Lemma rankHand_throws (p : PlayerWithHand) (e : Exception) :
  rankHand p = Throw e -> hand p = None /\ e = missingHand.
Proof.
  intros E. destruct (hand p) as [h|] eqn:Hh.
  - destruct (rankHand_returns p Hh) as (c & sc & R & _). rewrite R in E. discriminate E.
  - rewrite (rankHand_null p Hh) in E. injection E as <-. now split.
Qed.

(** [players.map(rankHand)]: either every hand is there and every player is
    ranked, in order, or some hand is missing and the call throws. *)
Lemma mapM_rankHand (ps : list PlayerWithHand) :
  (Forall (fun p => hand p <> None) ps /\
   exists rs, mapM rankHand ps = Return rs /\
              Forall2 (fun p r => rankHand p = Return r) ps rs)
  \/ (Exists (fun p => hand p = None) ps /\ mapM rankHand ps = Throw missingHand).
Proof.
  induction ps as [|p ps IH].
  - left. split; [constructor|]. exists []. split; [reflexivity|constructor].
  - cbn [mapM]. destruct (hand p) as [h|] eqn:Hh.
    + destruct (rankHand_returns p Hh) as (c & sc & R & _). rewrite R. cbn [bind].
      destruct IH as [(HF & rs & E & F2)|(HE & E)]; rewrite E; cbn [bind].
      * left. split; [constructor; [congruence|assumption]|].
        eexists. split; [reflexivity|]. constructor; assumption.
      * right. split; [now apply Exists_cons_tl|reflexivity].
    + right. rewrite (rankHand_null p Hh). split; [now apply Exists_cons_hd|reflexivity].
Qed.

Lemma Forall_not_Exists_null (ps : list PlayerWithHand) :
  Forall (fun p => hand p <> None) ps -> Exists (fun p => hand p = None) ps -> False.
Proof.
  intros HF HE. apply Exists_exists in HE. destruct HE as (p & Hin & Hn).
  rewrite Forall_forall in HF. exact (HF p Hin Hn).
Qed.

(** [compareHands] on a list that has not exactly one entry. *)
Lemma compareHands_many (ps : list PlayerWithHand) :
  length ps <> 1 ->
  compareHands ps =
  (ranked <- mapM rankHand ps ;;
   Return (Js.sort (fun handA handB => Js.sub (score handB) (score handA)) ranked)).
Proof.
  intros Hl. destruct ps as [|p [|q ps]]; [reflexivity| |reflexivity].
  simpl in Hl. lia.
Qed.

(** C2: on a list of exactly one player-hand association, [compareHands]
    returns the single result with category 'win via fold' and score 10000
    for that player, whatever the hand; in particular it returns and does not
    throw when the hand is absent, where ranking the hand would throw: the hand
    is not evaluated. *)
Theorem compareHands_single_wins_via_fold :
  (forall p : PlayerWithHand,
      compareHands [p]
      = Return [ {| player := p; category := Some WinViaFold; score := Js.Num 10000 |} ])
  /\ (forall p : PlayerWithHand,
         hand p = None ->
         rankHand p = Throw missingHand /\
         compareHands [p]
         = Return [ {| player := p; category := Some WinViaFold; score := Js.Num 10000 |} ]).
Proof.
  split.
  - intros p. reflexivity.
  - intros p Hn. split; [now apply rankHand_null|reflexivity].
Qed.

(** C3: for every hand that is present (of five cards or not), [rankHand]
    returns one result, whose category is one of the ten categories of the
    priority order (royal flush, ..., high card; never 'win via fold'): it is
    the first category of that order whose flag is true, the flag of 'high
    card' being always true, and the score after the walk (the base score) is
    1000 - 100 * i for the 0-based position i of the category. *)
Theorem rankHand_selects_one_category (p : PlayerWithHand) (h : list Card) :
  hand p = Some h ->
  exists (i : nat) (c : HandCategory) (res : RankHandReponse),
    rankHand p = Return res /\ player res = p /\ category res = Some c /\
    nth_error priorityOrder i = Some c /\
    In c priorityOrder /\ c <> WinViaFold /\
    flag h c = true /\
    (forall j c', j < i -> nth_error priorityOrder j = Some c' -> flag h c' = false) /\
    flag h HighCard = true /\
    selected h = (Js.Num (1000 - 100 * Z.of_nat i), Some c).
Proof.
  intros Hh. rewrite (rankHand_evaluate p Hh). unfold flag, selected.
  rewrite tally_counts.
  destruct (evaluate_returns (suitsOf (suit_counts h)) (rank_counts h) h)
    as (i & c & sc & Ek & Hn & Ht & Hj & E & _).
  rewrite E. exists i, c. eexists. cbn [bind fst snd player category].
  assert (Hin : In c priorityOrder) by (eapply nth_error_In; eassumption).
  repeat split; try assumption.
  intros ->. simpl in Hin. intuition discriminate.
Qed.

Lemma rankHand_selects_one_category_witness :
  exists (i : nat) (c : HandCategory) (res : RankHandReponse),
    rankHand (playerOf hand1) = Return res /\ player res = playerOf hand1 /\
    category res = Some c /\
    nth_error priorityOrder i = Some c /\
    In c priorityOrder /\ c <> WinViaFold /\
    flag hand1 c = true /\
    (forall j c', j < i -> nth_error priorityOrder j = Some c' -> flag hand1 c' = false) /\
    flag hand1 HighCard = true /\
    selected hand1 = (Js.Num (1000 - 100 * Z.of_nat i), Some c).
Proof. apply (rankHand_selects_one_category (playerOf hand1) (h := hand1)). reflexivity. Defined.

(** C8: [rankHand] throws exactly when the hand is absent, and what it throws
    is the internal server error of the missing hand; [compareHands] on two or
    more entries throws exactly when the hand of some entry is absent, and
    returns when every hand is present; no other exception (the [TypeError]
    of a [reduce] on no element) is ever thrown, by either function, on any
    input. *)
Theorem missing_hand_is_the_only_error :
  (forall p : PlayerWithHand, (exists e, rankHand p = Throw e) <-> hand p = None)
  /\ (forall (p : PlayerWithHand) (e : Exception), rankHand p = Throw e -> e = missingHand)
  /\ (forall ps : list PlayerWithHand,
         2 <= length ps ->
         ((exists e, compareHands ps = Throw e) <-> Exists (fun p => hand p = None) ps)
         /\ (Forall (fun p => hand p <> None) ps -> exists out, compareHands ps = Return out))
  /\ (forall (ps : list PlayerWithHand) (e : Exception),
         compareHands ps = Throw e -> e = missingHand).
Proof.
  split; [|split; [|split]].
  - intros p. split.
    + intros (e & E). now apply rankHand_throws in E.
    + intros Hn. exists missingHand. now apply rankHand_null.
  - intros p e E. now apply rankHand_throws in E.
  - intros ps Hl. rewrite compareHands_many by lia.
    destruct (mapM_rankHand ps) as [(HF & rs & E & _)|(HE & E)]; rewrite E; cbn [bind].
    + split; [split|].
      * intros (e & D). discriminate D.
      * intros HE. destruct (Forall_not_Exists_null HF HE).
      * intros _. eexists. reflexivity.
    + split; [split|].
      * intros _. exact HE.
      * intros _. eexists. reflexivity.
      * intros HF. destruct (Forall_not_Exists_null HF HE).
  - intros ps e E. destruct ps as [|p [|q ps]]; try discriminate E.
    rewrite compareHands_many in E by (simpl; lia).
    destruct (mapM_rankHand (p :: q :: ps)) as [(_ & rs & M & _)|(_ & M)];
      rewrite M in E; cbn [bind] in E; [discriminate E|].
    now injection E as <-.
Qed.

(* ================================================================== *)
(** ** Sorting by descending score *)
(* ================================================================== *)

Lemma same_eq (a b : Js.number) : same a b = true <-> a = b.
Proof.
  destruct a, b; simpl; split; intros E; try reflexivity; try discriminate E.
  - apply Z.eqb_eq in E. now subst.
  - injection E as ->. apply Z.eqb_refl.
Qed.

Lemma sub_self_not_positive (a : Js.number) : Js.positive (Js.sub a a) = false.
Proof.
  destruct a; try reflexivity. unfold Js.sub. simpl.
  apply Z.ltb_ge. lia.
Qed.

Lemma positive_sub_lt (a b : Js.number) :
  comparable a -> comparable b -> Js.positive (Js.sub b a) = true -> js_le a b.
Proof.
  intros [->|[x ->]] [->|[y ->]]; unfold Js.sub; simpl; try tauto; try discriminate.
  intros E. apply Z.ltb_lt in E. lia.
Qed.

Lemma not_positive_sub_ge (a b : Js.number) :
  comparable a -> comparable b -> Js.positive (Js.sub b a) = false -> js_le b a.
Proof.
  intros [->|[x ->]] [->|[y ->]]; unfold Js.sub; simpl; try tauto; try discriminate.
  intros E. apply Z.ltb_ge in E. lia.
Qed.

Lemma js_le_trans (a b c : Js.number) : js_le a b -> js_le b c -> js_le a c.
Proof. destruct a, b, c; simpl; try tauto. lia. Qed.

Lemma js_le_antisym (a b : Js.number) : js_le a b -> js_le b a -> a = b.
Proof. destruct a, b; simpl; try tauto. intros. f_equal. lia. Qed.

Lemma js_le_lt_eq (a b : Js.number) : js_le a b -> js_lt a b \/ a = b.
Proof.
  intros L. destruct (same a b) eqn:S.
  - right. now apply same_eq.
  - left. split; [assumption|]. intros E. apply same_eq in E. congruence.
Qed.

Lemma StronglySorted_weaken {A : Type} (R R' : A -> A -> Prop) (l : list A) :
  (forall a b, R a b -> R' a b) -> StronglySorted R l -> StronglySorted R' l.
Proof.
  intros HR. induction 1 as [|a l _ IH Ha]; constructor; [assumption|].
  eapply Forall_impl; [|exact Ha]. apply HR.
Qed.

Section Sorting.
Variable A : Type.
Variable key : A -> Js.number.

Let compareFn (x y : A) : Js.number := Js.sub (key y) (key x).
Let before (x y : A) : Prop := js_le (key y) (key x).

Lemma sort_insert_perm (x : A) (l : list A) :
  Permutation (Js.sort_insert compareFn x l) (x :: l).
Proof.
  induction l as [|y l IH]; simpl; [apply Permutation_refl|].
  destruct (Js.positive (compareFn x y)); [|apply Permutation_refl].
  eapply Permutation_trans; [apply perm_skip, IH|apply perm_swap].
Qed.

Lemma sort_perm (l : list A) : Permutation (Js.sort compareFn l) l.
Proof.
  induction l as [|x l IH]; simpl; [constructor|].
  eapply Permutation_trans; [apply sort_insert_perm|now apply perm_skip].
Qed.

Lemma sort_insert_sorted (x : A) (l : list A) :
  comparable (key x) -> Forall (fun y => comparable (key y)) l ->
  StronglySorted before l -> StronglySorted before (Js.sort_insert compareFn x l).
Proof.
  intros Hx Hl Hs. induction Hs as [|y l Hs IH Hy]; simpl.
  - constructor; constructor.
  - inversion Hl as [|? ? Cy Cl]; subst.
    destruct (Js.positive (compareFn x y)) eqn:E.
    + constructor; [now apply IH|].
      eapply Permutation_Forall; [apply Permutation_sym, sort_insert_perm|].
      constructor; [|assumption]. now apply positive_sub_lt.
    + assert (Bxy : before x y) by now apply not_positive_sub_ge.
      constructor; [now constructor|]. constructor; [assumption|].
      eapply Forall_impl; [|exact Hy]. intros z Byz. unfold before in *.
      eapply js_le_trans; eassumption.
Qed.

Lemma sort_sorted (l : list A) :
  Forall (fun y => comparable (key y)) l -> StronglySorted before (Js.sort compareFn l).
Proof.
  induction l as [|x l IH]; intros Hl; simpl; [constructor|].
  inversion Hl as [|? ? Cx Cl]; subst.
  apply sort_insert_sorted; [assumption| |now apply IH].
  eapply Permutation_Forall; [apply Permutation_sym, sort_perm|assumption].
Qed.

(** Stability: the elements with a given key keep their order. *)
Lemma sort_insert_stable (s : Js.number) (x : A) (l : list A) :
  filter (fun y => same (key y) s) (Js.sort_insert compareFn x l)
  = filter (fun y => same (key y) s) (x :: l).
Proof.
  induction l as [|y l IH]; [reflexivity|].
  cbn [Js.sort_insert]. destruct (Js.positive (compareFn x y)) eqn:E; [|reflexivity].
  cbn [filter] in *. rewrite IH.
  destruct (same (key x) s) eqn:Sx; [|reflexivity].
  destruct (same (key y) s) eqn:Sy; [|reflexivity].
  apply same_eq in Sx, Sy. unfold compareFn in E. rewrite Sx, Sy in E.
  rewrite sub_self_not_positive in E. discriminate E.
Qed.

Lemma sort_stable (s : Js.number) (l : list A) :
  filter (fun y => same (key y) s) (Js.sort compareFn l)
  = filter (fun y => same (key y) s) l.
Proof.
  induction l as [|x l IH]; [reflexivity|].
  cbn [Js.sort fold_right]. fold (Js.sort compareFn l).
  rewrite sort_insert_stable. cbn [filter]. now rewrite IH.
Qed.

Let down (x y : A) : Prop := js_lt (key y) (key x) \/ key y = key x.

Lemma sort_descending (l : list A) :
  Forall (fun y => comparable (key y)) l -> StronglySorted down (Js.sort compareFn l).
Proof.
  intros Hl. apply (StronglySorted_weaken (R := before)); [|now apply sort_sorted].
  intros a b. apply js_le_lt_eq.
Qed.

Lemma down_antisym (x y : A) : down x y -> down y x -> key x = key y.
Proof.
  intros [[L N]|E] [[L' N']|E']; try congruence.
  now apply js_le_antisym.
Qed.

Lemma filter_same_head (x : A) (l : list A) :
  filter (fun y => same (key y) (key x)) (x :: l)
  = x :: filter (fun y => same (key y) (key x)) l.
Proof.
  cbn [filter]. replace (same (key x) (key x)) with true; [reflexivity|].
  symmetry. now apply same_eq.
Qed.

Lemma filter_same_In (x : A) (l l' : list A) :
  (forall s, filter (fun y => same (key y) s) l = filter (fun y => same (key y) s) l') ->
  In x l -> In x l'.
Proof.
  intros F Hx. assert (Hf : In x (filter (fun y => same (key y) (key x)) l)).
  { apply filter_In. split; [assumption|now apply same_eq]. }
  rewrite F in Hf. now apply filter_In in Hf.
Qed.

(** There is one list only that holds the elements of a list in descending
    order of key with the elements of one key in their original order: what
    [sort] returns is what every stable sort returns. *)
Lemma stable_sorted_unique (l1 l2 : list A) :
  StronglySorted down l1 -> StronglySorted down l2 ->
  (forall s, filter (fun y => same (key y) s) l1 = filter (fun y => same (key y) s) l2) ->
  l1 = l2.
Proof.
  intros S1. revert l2. induction S1 as [|a l1 S1 IH Ha]; intros l2 S2 F.
  - destruct l2 as [|b l2]; [reflexivity|].
    specialize (F (key b)). rewrite filter_same_head in F. discriminate F.
  - destruct l2 as [|b l2].
    { specialize (F (key a)). rewrite filter_same_head in F. discriminate F. }
    inversion S2 as [|? ? S2' Hb]; subst.
    assert (Eab : a = b).
    { pose proof (F (key a)) as Fa. rewrite filter_same_head in Fa.
      cbn [filter] in Fa. destruct (same (key b) (key a)) eqn:Sb.
      - now injection Fa.
      - exfalso.
        assert (Ia : In a l2).
        { assert (Hin : In a (filter (fun y => same (key y) (key a)) l2))
            by (rewrite <- Fa; now left).
          now apply filter_In in Hin. }
        assert (Ib : In b (a :: l1))
          by (apply (@filter_same_In b (b :: l2) (a :: l1));
              [intros s; symmetry; apply F|now left]).
        destruct Ib as [->|Ib].
        + rewrite (proj2 (same_eq (key b) (key b)) eq_refl) in Sb. discriminate Sb.
        + rewrite Forall_forall in Ha, Hb.
          pose proof (down_antisym (Ha b Ib) (Hb a Ia)) as E.
          rewrite E in Sb.
          rewrite (proj2 (same_eq (key b) (key b)) eq_refl) in Sb. discriminate Sb. }
    subst b. f_equal. apply IH; [assumption|].
    intros s. specialize (F s). cbn [filter] in F.
    destruct (same (key a) s); [now injection F|assumption].
Qed.

End Sorting.

Lemma ranked_players (ps : list PlayerWithHand) (rs : list RankHandReponse) :
  Forall2 (fun p r => rankHand p = Return r) ps rs ->
  map player rs = ps /\ Forall (fun r => comparable (score r)) rs.
Proof.
  induction 1 as [|p r ps rs E F2 [IHp IHc]]; [split; constructor|].
  assert (player r = p /\ comparable (score r)) as [Hp Hc].
  { destruct (hand p) as [h|] eqn:Hh.
    - destruct (rankHand_returns p Hh) as (c & sc & R & _ & Hsc).
      rewrite R in E. injection E as <-. now split.
    - rewrite (rankHand_null p Hh) in E. discriminate E. }
  split; [simpl; now rewrite Hp, IHp|now constructor].
Qed.

(** C1: on two or more player-hand associations whose hands are all present,
    [compareHands] returns the results of [rankHand] on the players, one per
    player, sorted by descending score: a result stands before another only
    if its score is strictly greater or the same, and the results of one and
    the same score are in the order of their players in the input. No other
    list is so sorted. *)
Theorem compareHands_sorted_descending_stable (ps : list PlayerWithHand) :
  2 <= length ps ->
  Forall (fun p => hand p <> None) ps ->
  exists out ranked : list RankHandReponse,
    compareHands ps = Return out /\
    Forall2 (fun p r => rankHand p = Return r) ps ranked /\
    map player ranked = ps /\
    length out = length ps /\
    sortedByScore ranked out /\
    (forall out', sortedByScore ranked out' -> out' = out).
Proof.
  intros Hl HF. rewrite compareHands_many by lia.
  destruct (mapM_rankHand ps) as [(_ & rs & E & F2)|(HE & _)];
    [|destruct (Forall_not_Exists_null HF HE)].
  rewrite E. cbn [bind]. destruct (ranked_players F2) as [Hp Hc].
  eexists. exists rs. split; [reflexivity|]. split; [assumption|].
  split; [assumption|].
  assert (SB : sortedByScore rs
                 (Js.sort (fun handA handB => Js.sub (score handB) (score handA)) rs)).
  { split; [apply sort_perm|]. split; [now apply sort_descending|].
    intros s. apply sort_stable. }
  split; [|split; [exact SB|]].
  - rewrite (Permutation_length (sort_perm score rs)). rewrite <- Hp.
    symmetry. apply length_map.
  - intros out' (_ & S' & F'). destruct SB as (_ & S & F).
    apply (stable_sorted_unique score S' S). intros s. now rewrite F', F.
Qed.

Lemma compareHands_sorted_descending_stable_witness :
  exists out ranked : list RankHandReponse,
    compareHands [playerOf hand1; playerOf hand2] = Return out /\
    Forall2 (fun p r => rankHand p = Return r) [playerOf hand1; playerOf hand2] ranked /\
    map player ranked = [playerOf hand1; playerOf hand2] /\
    length out = length [playerOf hand1; playerOf hand2] /\
    sortedByScore ranked out /\
    (forall out', sortedByScore ranked out' -> out' = out).
Proof.
  apply (@compareHands_sorted_descending_stable [playerOf hand1; playerOf hand2]).
  - simpl. lia.
  - repeat constructor; discriminate.
Defined.

(* ================================================================== *)
(** ** Five-card hands: scores by category *)
(* ================================================================== *)

Lemma four_check_all :
  forallb (fun v => four_check v true && four_check v false) (vectors 13 5) = true.
Proof. vm_cast_no_check (eq_refl true). Qed.

Lemma pair_check_all :
  forallb (fun v => pair_check v true && pair_check v false) (vectors 13 5) = true.
Proof. vm_cast_no_check (eq_refl true). Qed.

Lemma bound_check_all :
  forallb (fun v => bound_check v true && bound_check v false) (vectors 13 5) = true.
Proof. vm_cast_no_check (eq_refl true). Qed.

Lemma kicker_check_all :
  forallb (fun v => kicker_check v true && kicker_check v false) (vectors 13 5) = true.
Proof. vm_cast_no_check (eq_refl true). Qed.

Lemma cnt_rank_counts (h : list Card) (r : Rank) : cnt (rank_counts h) r = count_rank r h.
Proof. destruct r; reflexivity. Qed.

Lemma forallb_ranks (f : Rank -> bool) :
  forallb f all_ranks = true -> forall r, f r = true.
Proof. intros F r. rewrite forallb_forall in F. apply F, all_ranks_complete. Qed.

Lemma existsb_ranks (f : Rank -> bool) :
  existsb f all_ranks = true -> exists r, f r = true.
Proof. intros E. apply existsb_exists in E. destruct E as (r & _ & E). now exists r. Qed.

Lemma HandCategory_beq_true (c c' : HandCategory) : HandCategory_beq c c' = true -> c = c'.
Proof. apply internal_HandCategory_dec_bl. Qed.

Lemma in_rank_counts (h : list Card) (n : nat) :
  In n (rank_counts h) <-> exists r, count_rank r h = n.
Proof.
  unfold rank_counts. rewrite in_map_iff. split.
  - intros (r & E & _). now exists r.
  - intros (r & E). exists r. split; [assumption|apply all_ranks_complete].
Qed.

Lemma in_ranksOf_counts (h : list Card) (r : Rank) (n : nat) :
  In (r, n) (ranksOf (rank_counts h)) -> n = count_rank r h.
Proof.
  unfold ranksOf, rank_counts. induction all_ranks as [|r' l IH]; simpl; [tauto|].
  intros [E|Hin]; [now injection E as <- <-|now apply IH].
Qed.

Lemma flag_FourOfAKind (h : list Card) :
  flag h FourOfAKind = Js.some (fun count => count =? 4) (rank_counts h).
Proof. unfold flag. rewrite tally_counts. reflexivity. Qed.

Lemma flag_FullHouse (h : list Card) :
  flag h FullHouse = (length (filter Boolean (rank_counts h)) =? 2).
Proof. unfold flag. rewrite tally_counts. reflexivity. Qed.

(** Whatever [rankHand] returns is for the player it was given. *)
Lemma rankHand_result (p : PlayerWithHand) (res : RankHandReponse) (h : list Card) :
  hand p = Some h -> rankHand p = Return res ->
  outcome (rank_counts h) (isFlush h) = Return (category res, score res) /\ player res = p.
Proof.
  intros Hh E. rewrite (rankHand_outcome p Hh) in E.
  destruct (outcome _ _) as [e|[c sc]]; [discriminate E|].
  cbn [bind fst snd] in E. injection E as <-. now split.
Qed.

(** C4: a hand of five cards in which a rank r occurs exactly four times is
    ranked 'four of a kind' with score 800 + 4 * r; the flag of 'full house'
    is true of it as well and is masked by the priority order. *)
Theorem four_of_a_kind_score (p : PlayerWithHand) (h : list Card) (r : Rank) :
  hand p = Some h -> length h = 5 -> count_rank r h = 4 ->
  rankHand p
  = Return {| player := p; category := Some FourOfAKind;
              score := Js.Num (800 + 4 * rank_value r) |}
  /\ flag h FourOfAKind = true /\ flag h FullHouse = true.
Proof.
  intros Hh Hl Hc. rewrite (rankHand_outcome p Hh), flag_FourOfAKind, flag_FullHouse.
  pose proof (five_cards four_check four_check_all h Hl) as C. unfold four_check in C.
  destruct (outcome _ _) as [e|[[c|] sc]]; try discriminate C.
  pose proof (forallb_ranks _ C r) as Cr. cbv beta in Cr.
  rewrite cnt_rank_counts, Hc in Cr. cbn [Nat.eqb implb] in Cr.
  apply andb_true_iff in Cr. destruct Cr as [Cr Cf].
  apply andb_true_iff in Cr. destruct Cr as [Cc Cs].
  apply HandCategory_beq_true in Cc. apply same_eq in Cs. subst c sc.
  split; [reflexivity|]. split; [|exact Cf].
  apply existsb_exists. exists 4. split; [|reflexivity].
  apply in_rank_counts. now exists r.
Qed.

Lemma four_of_a_kind_score_witness :
  rankHand (playerOf quads)
  = Return {| player := playerOf quads; category := Some FourOfAKind;
              score := Js.Num (800 + 4 * rank_value R9) |}
  /\ flag quads FourOfAKind = true /\ flag quads FullHouse = true.
Proof. apply (@four_of_a_kind_score (playerOf quads) quads R9); reflexivity. Defined.

Lemma filter_length_perm {A : Type} (f : A -> bool) (l l' : list A) :
  Permutation l l' -> length (filter f l) = length (filter f l').
Proof.
  induction 1 as [|x l l' _ IH|x y l|l l' l'' _ IH1 _ IH2]; simpl.
  - reflexivity.
  - destruct (f x); simpl; now rewrite IH.
  - destruct (f x), (f y); reflexivity.
  - now rewrite IH1.
Qed.

Lemma count_rank_map (r : Rank) (h : list Card) :
  count_rank r h = length (filter (fun x => Rank_beq x r) (map rank h)).
Proof. unfold count_rank. now rewrite filter_map_swap, length_map. Qed.

(** The rank counts of a hand depend on the ranks it holds, in any order. *)
Lemma rank_counts_perm (h : list Card) (l : list Rank) :
  Permutation (map rank h) l ->
  rank_counts h = map (fun r => length (filter (fun x => Rank_beq x r) l)) all_ranks.
Proof.
  intros HP. unfold rank_counts. apply map_ext. intros r.
  rewrite count_rank_map. now apply filter_length_perm.
Qed.

Lemma count_suit_all (s : Suit) (h : list Card) :
  Forall (fun c => suit c = s) h -> count_suit s h = length h.
Proof.
  unfold count_suit. induction 1 as [|c h E _ IH]; [reflexivity|].
  cbn [filter]. rewrite E.
  replace (Suit_beq s s) with true by (now destruct s). simpl. now rewrite IH.
Qed.

Lemma isFlush_one_suit (s : Suit) (h : list Card) :
  length h = 5 -> Forall (fun c => suit c = s) h -> isFlush h = true.
Proof.
  intros Hl HF. unfold isFlush. apply existsb_exists. exists (count_suit s h). split.
  - unfold suit_counts. apply (in_map (fun s' => count_suit s' h)), all_suits_complete.
  - rewrite (count_suit_all HF), Hl. reflexivity.
Qed.

(** C5: a hand of five cards of one suit whose ranks are exactly 10, 11, 12,
    13 and 14 is ranked 'royal flush' with score 1000 + (10+11+12+13+14) = 1060. *)
Theorem royal_flush_score (p : PlayerWithHand) (h : list Card) (s : Suit) :
  hand p = Some h ->
  Forall (fun c => suit c = s) h ->
  Permutation (map rank h) [R10; R11; R12; R13; R14] ->
  rankHand p
  = Return {| player := p; category := Some RoyalFlush; score := Js.Num 1060 |}.
Proof.
  intros Hh Hs Hr. rewrite (rankHand_outcome p Hh).
  assert (Hl : length h = 5).
  { rewrite <- (length_map rank h). now rewrite (Permutation_length Hr). }
  rewrite (rank_counts_perm h Hr), (isFlush_one_suit Hl Hs).
  vm_compute. reflexivity.
Qed.

Lemma royal_perm : Permutation (map rank royal) [R10; R11; R12; R13; R14].
Proof.
  cbn [royal map card rank].
  apply (Permutation_cons_app [R10; R11; R12; R13] [] R14). cbn [app].
  apply perm_skip.
  apply (Permutation_cons_app [R11; R12] [] R13). cbn [app].
  apply Permutation_refl.
Defined.

Lemma royal_flush_score_witness :
  rankHand (playerOf royal)
  = Return {| player := playerOf royal; category := Some RoyalFlush;
              score := Js.Num 1060 |}.
Proof.
  apply (@royal_flush_score (playerOf royal) royal hearts).
  - reflexivity.
  - repeat constructor.
  - exact royal_perm.
Defined.

(** C6: for a hand of five cards ranked 'pair', exactly one rank p occurs
    twice, and the score is 200 + 2 * p + k, where k is the greatest rank among
    those that occur exactly once (the kicker). The hands of the documented
    example, 4C 4D 7H 2C 9S and 4S 4H 7H 2C JS, score 217 and 219. *)
Theorem pair_score :
  (forall (p : PlayerWithHand) (h : list Card) (res : RankHandReponse),
      hand p = Some h -> length h = 5 ->
      rankHand p = Return res -> category res = Some Pair ->
      exists pr k : Rank,
        count_rank pr h = 2 /\ (forall q, count_rank q h = 2 -> q = pr) /\
        count_rank k h = 1 /\
        (forall q, count_rank q h = 1 -> (rank_value q <= rank_value k)%Z) /\
        score res = Js.Num (200 + 2 * rank_value pr + rank_value k))
  /\ rankHand (playerOf hand1)
     = Return {| player := playerOf hand1; category := Some Pair; score := Js.Num 217 |}
  /\ rankHand (playerOf hand2)
     = Return {| player := playerOf hand2; category := Some Pair; score := Js.Num 219 |}.
Proof.
  split; [|split; reflexivity].
  intros p h res Hh Hl E Hc. destruct (rankHand_result p Hh E) as [O _]. rewrite Hc in O.
  pose proof (five_cards pair_check pair_check_all h Hl) as C. unfold pair_check in C.
  rewrite O in C. apply existsb_ranks in C. destruct C as (pr & C).
  rewrite cnt_rank_counts in C.
  destruct (count_rank pr h =? 2) eqn:Cp; [|discriminate C].
  apply andb_true_iff in C. destruct C as [Cu C].
  apply existsb_ranks in C. destruct C as (k & C). rewrite cnt_rank_counts in C.
  destruct (count_rank k h =? 1) eqn:Ck; [|discriminate C].
  apply andb_true_iff in C. destruct C as [Cm Cs].
  apply Nat.eqb_eq in Cp, Ck. apply same_eq in Cs.
  exists pr, k. repeat split; try assumption.
  - intros q Hq. pose proof (forallb_ranks _ Cu q) as Cq. cbv beta in Cq.
    rewrite cnt_rank_counts, Hq in Cq. now apply Rank_beq_true in Cq.
  - intros q Hq. pose proof (forallb_ranks _ Cm q) as Cq. cbv beta in Cq.
    rewrite cnt_rank_counts, Hq in Cq. now apply Z.leb_le in Cq.
Qed.

Lemma pair_score_witness :
  exists pr k : Rank,
    count_rank pr hand1 = 2 /\ (forall q, count_rank q hand1 = 2 -> q = pr) /\
    count_rank k hand1 = 1 /\
    (forall q, count_rank q hand1 = 1 -> (rank_value q <= rank_value k)%Z) /\
    Js.Num 217 = Js.Num (200 + 2 * rank_value pr + rank_value k).
Proof.
  apply (proj1 pair_score (playerOf hand1) hand1
           {| player := playerOf hand1; category := Some Pair; score := Js.Num 217 |});
    reflexivity.
Defined.

Lemma counts_at_most_four (h : list Card) :
  (forall r, count_rank r h <= 4) -> forallb (fun n => n <=? 4) (rank_counts h) = true.
Proof.
  intros H4. apply forallb_forall. intros n Hn. apply in_rank_counts in Hn.
  destruct Hn as (r & <-). apply Nat.leb_le, H4.
Qed.

(** A hand of five cards of a deck, which are distinct, holds no rank more
    than four times: there are four suits. *)
Lemma distinct_cards_rank_count (h : list Card) (r : Rank) :
  NoDup h -> count_rank r h <= 4.
Proof.
  intros ND. unfold count_rank.
  set (l := filter (fun c => Rank_beq (rank c) r) h).
  rewrite <- (length_map suit l). change 4 with (length all_suits).
  apply NoDup_incl_length; [|intros s _; apply all_suits_complete].
  apply NoDup_map_NoDup_ForallPairs; [|now apply NoDup_filter].
  intros [r1 s1] [r2 s2] H1 H2 Es. unfold l in H1, H2.
  apply filter_In in H1, H2. destruct H1 as [_ H1], H2 as [_ H2].
  cbn [rank suit] in *. apply Rank_beq_true in H1, H2. now subst.
Qed.

(** C9: the score of a hand of five cards is below the score 10000 of a win
    via fold, so that the comparator of [compareHands] puts the win via fold
    first; it is at most 1060, which is the score of the royal flushes and of
    no other hand; and it is an integer between 101 and 1060 when no rank
    occurs five times in the hand, as in every hand of five distinct cards. *)
Theorem in_hand_score_below_fold :
  (forall (p : PlayerWithHand) (h : list Card),
      hand p = Some h -> length h = 5 ->
      exists res : RankHandReponse,
        rankHand p = Return res /\
        js_le (score res) (Js.Num 1060) /\
        Js.positive (Js.sub (Js.Num 10000) (score res)) = true /\
        (score res = Js.Num 1060 <-> category res = Some RoyalFlush) /\
        (NoDup h \/ (forall r, count_rank r h <= 4) ->
         exists z, score res = Js.Num z /\ (100 < z <= 1060)%Z /\ (z < 10000)%Z))
  /\ rankHand (playerOf royal)
     = Return {| player := playerOf royal; category := Some RoyalFlush;
                 score := Js.Num 1060 |}.
Proof.
  split; [|reflexivity].
  intros p h Hh Hl. rewrite (rankHand_outcome p Hh).
  pose proof (five_cards bound_check bound_check_all h Hl) as C. unfold bound_check in C.
  destruct (outcome _ _) as [e|[[c|] sc]]; try discriminate C.
  eexists. split; [reflexivity|]. cbn [fst snd score category].
  destruct sc as [| | |z]; try discriminate C.
  - (* -Infinity *)
    apply andb_true_iff in C. destruct C as [C4 Cr].
    split; [exact I|]. split; [reflexivity|]. split.
    + split; intros D; [discriminate D|].
      injection D as ->. discriminate Cr.
    + intros H4. rewrite (counts_at_most_four h) in C4; [discriminate C4|].
      destruct H4 as [ND|H4]; [|exact H4].
      intros r. now apply distinct_cards_rank_count.
  - apply andb_true_iff in C. destruct C as [C Cr].
    apply andb_true_iff in C. destruct C as [Cl Cu].
    apply Z.ltb_lt in Cl. apply Z.leb_le in Cu.
    split; [exact Cu|]. split; [cbv [Js.sub Js.neg Js.add Js.positive]; apply Z.ltb_lt; lia|]. split.
    + apply eqb_prop in Cr. split.
      * intros D. injection D as ->. simpl in Cr. symmetry in Cr.
        now apply HandCategory_beq_true in Cr as ->.
      * intros D. injection D as ->. simpl in Cr.
        apply Z.eqb_eq in Cr. now subst.
    + intros _. exists z. repeat split; try assumption; lia.
Qed.

Lemma in_hand_score_below_fold_witness :
  exists res : RankHandReponse,
    rankHand (playerOf hand2) = Return res /\
    js_le (score res) (Js.Num 1060) /\
    Js.positive (Js.sub (Js.Num 10000) (score res)) = true /\
    (score res = Js.Num 1060 <-> category res = Some RoyalFlush) /\
    (NoDup hand2 \/ (forall r, count_rank r hand2 <= 4) ->
     exists z, score res = Js.Num z /\ (100 < z <= 1060)%Z /\ (z < 10000)%Z).
Proof.
  apply (proj1 in_hand_score_below_fold (playerOf hand2) hand2); reflexivity.
Defined.

Lemma in_ranksOf (h : list Card) (r : Rank) :
  In (r, count_rank r h) (ranksOf (rank_counts h)).
Proof.
  unfold ranksOf, rank_counts. generalize (all_ranks_complete r).
  induction all_ranks as [|r' l IH]; simpl; [tauto|].
  intros [->|Hin]; [now left|right; now apply IH].
Qed.

(** The cards of a hand are taken to be those of a deck. On five cards of one
    rank, which no deck deals (a card is given twice), the hand is ranked
    'high card', no rank has count 1, the kicker is the maximum of no number
    and the score is [-Infinity]. *)
Lemma kicker_of_five_of_a_rank :
  length fiveTwos = 5
  /\ rankHand (playerOf fiveTwos)
     = Return {| player := playerOf fiveTwos; category := Some HighCard;
                 score := Js.NegInfinity |}
  /\ keysWith (snd (tally fiveTwos)) 1 = []
  /\ ~ (forall (p : PlayerWithHand) (h : list Card) (res : RankHandReponse)
               (c : HandCategory),
           hand p = Some h -> length h = 5 ->
           rankHand p = Return res -> category res = Some c ->
           In c [TwoPairs; Pair; HighCard] ->
           exists r, count_rank r h = 1).
Proof.
  split; [reflexivity|]. split; [reflexivity|]. split; [reflexivity|].
  intros H.
  destruct (H (playerOf fiveTwos) fiveTwos
              {| player := playerOf fiveTwos; category := Some HighCard;
                 score := Js.NegInfinity |}
              HighCard eq_refl eq_refl eq_refl eq_refl
              (or_intror (or_intror (or_introl eq_refl)))) as (r & Hr).
  destruct r; discriminate Hr.
Qed.

(** C10: for a hand of five cards (of a deck: the cards are distinct, or, which
    is all that is used of it, no rank occurs more than four times, as the
    rank tally of the data model has it) that is ranked 'two pairs', 'pair' or
    'high card', some rank has count 1, so that the keys the kicker is the
    maximum of are not empty and the score is an integer; and when the hand
    is ranked 'pair' exactly one rank has count 2, so that the keys the pair's
    [reduce] runs over are that single key and the reduction returns it. *)
Theorem kicker_and_pair_well_defined (p : PlayerWithHand) (h : list Card)
    (res : RankHandReponse) (c : HandCategory) :
  hand p = Some h -> length h = 5 -> NoDup h \/ (forall r, count_rank r h <= 4) ->
  rankHand p = Return res -> category res = Some c ->
  In c [TwoPairs; Pair; HighCard] ->
  (exists r, count_rank r h = 1)
  /\ keysWith (snd (tally h)) 1 <> []
  /\ (exists z, score res = Js.Num z)
  /\ (c = Pair ->
      exists pr, count_rank pr h = 2 /\ (forall q, count_rank q h = 2 -> q = pr) /\
                 keysWith (snd (tally h)) 2 = [rank_key pr] /\
                 Js.reduce (fun a b => (a ++ b)%string) (keysWith (snd (tally h)) 2)
                 = Some (rank_key pr)).
Proof.
  intros Hh Hl Hd E Hc Hin.
  assert (H4 : forall r, count_rank r h <= 4).
  { destruct Hd as [ND|H4]; [|exact H4]. intros r. now apply distinct_cards_rank_count. }
  destruct (rankHand_result p Hh E) as [O _]. rewrite Hc in O.
  pose proof (five_cards kicker_check kicker_check_all h Hl) as C.
  unfold kicker_check in C. rewrite O in C.
  apply andb_true_iff in C. destruct C as [Cp Ck].
  rewrite (counts_at_most_four h H4) in Ck. rewrite tally_counts. cbn [snd].
  assert (Hk : existsb (fun n => n =? 1) (rank_counts h) = true
               /\ exists z, score res = Js.Num z).
  { destruct Hin as [<-|[<-|[<-|[]]]];
      match type of Ck with
      | implb (true && ?b) _ = true => replace b with true in Ck by reflexivity
      end;
      cbn [andb implb] in Ck;
      apply andb_true_iff in Ck; destruct Ck as [C1 Cn]; (split; [exact C1|]);
      destruct (score res); try discriminate Cn; eexists; reflexivity. }
  destruct Hk as [C1 Hz]. split; [|split; [|split; [exact Hz|]]].
  - apply existsb_exists in C1. destruct C1 as (n & Hn & En).
    apply Nat.eqb_eq in En. subst n. now apply in_rank_counts.
  - destruct (keysWith_ranks (rank_counts h) 1) as (rs & K & L & _). rewrite K.
    change (Obj.values (ranksOf (rank_counts h))) with (rank_counts h) in L.
    apply some_filter_length in C1. rewrite <- L in C1.
    destruct rs; [cbn [length] in C1; lia|discriminate].
  - intros ->. replace (HandCategory_beq Pair Pair) with true in Cp by reflexivity.
    cbn [implb] in Cp. apply Nat.eqb_eq in Cp.
    destruct (keysWith_ranks (rank_counts h) 2) as (rs & K & L & R). rewrite K.
    change (Obj.values (ranksOf (rank_counts h))) with (rank_counts h) in L.
    rewrite Cp in L. destruct rs as [|pr [|? ?]]; try discriminate L.
    assert (Hrs : forall q, In q [pr] <-> count_rank q h = 2).
    { intros q. rewrite R, in_map_iff. split.
      - intros ([q' n] & Eq & Hq). cbn [fst] in Eq. subst q'.
        apply filter_In in Hq. destruct Hq as [Hq En]. cbn [snd] in En.
        apply Nat.eqb_eq in En. apply in_ranksOf_counts in Hq. congruence.
      - intros Hq. exists (q, count_rank q h). split; [reflexivity|].
        apply filter_In. split; [apply in_ranksOf|]. cbn [snd]. now apply Nat.eqb_eq. }
    exists pr. split; [apply Hrs; now left|]. split; [|split; reflexivity].
    intros q Hq. apply Hrs in Hq. destruct Hq as [Hq|[]]. now symmetry.
Qed.

Lemma kicker_and_pair_well_defined_witness :
  (exists r, count_rank r hand1 = 1)
  /\ keysWith (snd (tally hand1)) 1 <> []
  /\ (exists z, Js.Num 217 = Js.Num z)
  /\ (Pair = Pair ->
      exists pr, count_rank pr hand1 = 2 /\ (forall q, count_rank q hand1 = 2 -> q = pr) /\
                 keysWith (snd (tally hand1)) 2 = [rank_key pr] /\
                 Js.reduce (fun a b => (a ++ b)%string) (keysWith (snd (tally hand1)) 2)
                 = Some (rank_key pr)).
Proof.
  apply (@kicker_and_pair_well_defined (playerOf hand1) hand1
           {| player := playerOf hand1; category := Some Pair; score := Js.Num 217 |}
           Pair); try reflexivity.
  - right. intros r. destruct r; vm_compute; lia.
  - simpl. tauto.
Defined.

(* ================================================================== *)
(** ** The straight flag *)
(* ================================================================== *)

Section ArrayFacts.
Context {A : Type} (d : A) (p : A -> bool).

(** [findIndex] returns the first position whose element passes the test,
    and [-1] when none does. *)
Lemma findIndex_from_first (l : list A) (i0 : Z) :
  (Forall (fun x => p x = false) l /\ Js.findIndex_from p l i0 = (-1)%Z)
  \/ (exists n, n < length l /\ p (nth n l d) = true /\
                (forall m, m < n -> p (nth m l d) = false) /\
                Js.findIndex_from p l i0 = (i0 + Z.of_nat n)%Z).
Proof.
  revert i0. induction l as [|x l IH]; intros i0.
  - left. split; [constructor|reflexivity].
  - cbn [Js.findIndex_from]. destruct (p x) eqn:Px.
    + right. exists 0. cbn [nth length]. repeat split; try lia; assumption.
    + destruct (IH (i0 + 1)%Z) as [[Hall E]|(n & Hn & Hp & Hmin & E)].
      * left. split; [now constructor|assumption].
      * right. exists (S n). cbn [nth length]. repeat split; try lia; try assumption.
        intros [|m] Hm; [assumption|]. apply Hmin. lia.
Qed.

(** [l.slice(n, n + 5)] is the window of at most five elements from
    position [n] on. *)
Lemma slice_window (l : list A) (n : nat) :
  n <= length l -> Js.slice l (Z.of_nat n) (Z.of_nat n + 5) = firstn 5 (skipn n l).
Proof.
  intros Hn. unfold Js.slice, Js.clamp.
  destruct (Z.ltb_spec (Z.of_nat n) 0); [lia|].
  destruct (Z.ltb_spec (Z.of_nat n + 5) 0); [lia|].
  rewrite (Z.min_l (Z.of_nat n)) by lia. rewrite Nat2Z.id.
  destruct (Z.min_spec (Z.of_nat n + 5) (Z.of_nat (length l))) as [[Hlt ->]|[Hge ->]].
  - f_equal. lia.
  - replace (Z.to_nat (Z.of_nat (length l) - Z.of_nat n)) with (length (skipn n l))
      by (rewrite length_skipn; lia).
    rewrite firstn_all. symmetry. apply firstn_all2. rewrite length_skipn. lia.
Qed.

Lemma slice_incl (l : list A) (a b : Z) : incl (Js.slice l a b) l.
Proof.
  unfold Js.slice. intros x Hx.
  set (k := Z.to_nat (Js.clamp (Z.of_nat (length l)) a)) in Hx.
  set (w := skipn k l) in Hx.
  set (m := Z.to_nat (Js.clamp (Z.of_nat (length l)) b - Js.clamp (Z.of_nat (length l)) a))
    in Hx.
  rewrite <- (firstn_skipn k l). apply in_or_app. right. fold w.
  rewrite <- (firstn_skipn m w). apply in_or_app. now left.
Qed.

(** All of the five elements from position [n] on pass the test. *)
Lemma window_full (l : list A) (n : nat) :
  length (filter p (firstn 5 (skipn n l))) = 5
  <-> n + 5 <= length l /\ forall k, k < 5 -> p (nth (n + k) l d) = true.
Proof.
  set (w := firstn 5 (skipn n l)).
  assert (Lw : length w = Nat.min 5 (length l - n))
    by (unfold w; now rewrite length_firstn, length_skipn).
  assert (Nw : forall k, k < 5 -> nth k w d = nth (n + k) l d).
  { intros k Hk. unfold w. rewrite nth_firstn.
    destruct (Nat.ltb_spec k 5); [apply nth_skipn|lia]. }
  split.
  - intros E. pose proof (filter_length_le p w) as Hle.
    assert (L5 : length w = 5) by lia.
    split; [lia|]. intros k Hk. rewrite <- Nw by assumption.
    assert (F : forallb p w = true) by (apply filter_length_forallb; lia).
    rewrite forallb_forall in F. apply F, nth_In. lia.
  - intros [Hn Hk]. rewrite forallb_filter_id; [lia|].
    apply forallb_forall. intros x Hx.
    destruct (In_nth w x d Hx) as (k & Hlt & <-).
    rewrite Nw by lia. apply Hk. lia.
Qed.

End ArrayFacts.

Lemma rank_value_index (r : Rank) : rank_value r = (Z.of_nat (rank_index r) + 2)%Z.
Proof. destruct r; reflexivity. Qed.

Lemma rank_index_lt (r : Rank) : rank_index r < 13.
Proof. destruct r; cbv; lia. Qed.

Lemma rank_of_index (n : nat) : n < 13 -> exists r, rank_index r = n.
Proof.
  intros Hn.
  do 13 (destruct n as [|n];
         [ first [ now exists R2 | now exists R3 | now exists R4 | now exists R5
                 | now exists R6 | now exists R7 | now exists R8 | now exists R9
                 | now exists R10 | now exists R11 | now exists R12
                 | now exists R13 | now exists R14 ] | ]).
  lia.
Qed.

Lemma count_rank_nth (h : list Card) (r : Rank) :
  count_rank r h = nth (rank_index r) (rank_counts h) 0.
Proof. symmetry. apply cnt_rank_counts. Qed.

Lemma flag_Straight (h : list Card) :
  flag h Straight =
  (length (filter (fun count => count =? 1)
             (Js.slice (rank_counts h)
                (Js.findIndex (fun index => index =? 1) (rank_counts h))
                (Js.findIndex (fun index => index =? 1) (rank_counts h) + 5)))
   =? 5).
Proof. unfold flag. rewrite tally_counts. reflexivity. Qed.

Lemma straight_flag_spec (h : list Card) : flag h Straight = true <-> straight_spec h.
Proof.
  rewrite flag_Straight. unfold Js.findIndex, straight_spec.
  assert (Lv : length (rank_counts h) = 13) by reflexivity.
  destruct (findIndex_from_first 0 (fun index => index =? 1) (rank_counts h) 0)
    as [[Hall E]|(n & Hn & Hp & Hmin & E)]; rewrite E.
  - (* no rank of count 1 *)
    rewrite Forall_forall in Hall. split.
    + intros F. apply Nat.eqb_eq in F.
      assert (N : filter (fun count => count =? 1) (Js.slice (rank_counts h) (-1) (-1 + 5)) = []).
      { destruct (filter _ _) as [|x l] eqn:Ef; [reflexivity|].
        assert (Hx : In x (x :: l)) by now left. rewrite <- Ef in Hx.
        apply filter_In in Hx. destruct Hx as [Hx Px].
        apply slice_incl in Hx. rewrite (Hall x Hx) in Px. discriminate Px. }
      rewrite N in F. discriminate F.
    + intros (a & Ha & _). exfalso.
      assert (Hin : In (count_rank a h) (rank_counts h)) by (apply in_rank_counts; now exists a).
      apply Hall in Hin. rewrite Ha in Hin. discriminate Hin.
  - (* the anchor is the rank at position n *)
    cbn [Z.add]. rewrite slice_window by lia. rewrite Nat.eqb_eq.
    rewrite (window_full 0 (fun count => count =? 1) (rank_counts h) n).
    destruct (rank_of_index Hn) as (a & Ia).
    apply Nat.eqb_eq in Hp. split.
    + intros [H5 Hrun]. exists a. split; [|split].
      * rewrite count_rank_nth, Ia. exact Hp.
      * intros r Hr. rewrite !rank_value_index in Hr. rewrite count_rank_nth.
        apply Nat.eqb_neq, Hmin. lia.
      * intros k Hk. destruct (@rank_of_index (n + Z.to_nat k)) as (r & Ir); [lia|].
        exists r. split; [rewrite !rank_value_index; lia|].
        rewrite count_rank_nth, Ir. apply Nat.eqb_eq, Hrun. lia.
    + intros (b & Hb & Hlow & Hrun).
      assert (Ib : rank_index b = n).
      { rewrite count_rank_nth in Hb.
        destruct (Nat.lt_trichotomy (rank_index b) n) as [Hlt|[Heq|Hgt]];
          [|assumption|].
        - apply Hmin in Hlt. rewrite Hb in Hlt. discriminate Hlt.
        - exfalso. apply (Hlow a); [rewrite !rank_value_index; lia|].
          rewrite count_rank_nth, Ia. exact Hp. }
      assert (R : forall k, k < 5 -> n + k < 13 /\ nth (n + k) (rank_counts h) 0 = 1).
      { intros k Hk. destruct (Hrun (Z.of_nat k)) as (r & Vr & Cr); [lia|].
        rewrite !rank_value_index, Ib in Vr.
        assert (Ir : rank_index r = n + k) by lia.
        pose proof (rank_index_lt r). rewrite count_rank_nth, Ir in Cr.
        split; [lia|exact Cr]. }
      split; [destruct (R 4); lia|].
      intros k Hk. apply Nat.eqb_eq. now apply R.
Qed.

(** C7: the straight flag of a hand is true exactly when, the lowest rank with
    count 1 being the anchor, the five ranks anchor, ..., anchor + 4 have
    count exactly 1 each; and a hand with the ranks 14, 2, 3, 4, 5 has a false
    straight flag: it is ranked 'flush' (score 628) when its cards are of one
    suit and 'high card' (score 114) otherwise, never as a straight. *)
Theorem straight_flag_anchor_run :
  (forall h : list Card, flag h Straight = true <-> straight_spec h)
  /\ (forall (p : PlayerWithHand) (h : list Card),
         hand p = Some h ->
         Permutation (map rank h) [R14; R2; R3; R4; R5] ->
         flag h Straight = false /\ ~ straight_spec h /\
         rankHand p
         = Return {| player := p;
                     category := Some (if isFlush h then Flush else HighCard);
                     score := Js.Num (if isFlush h then 628 else 114) |}).
Proof.
  split; [exact straight_flag_spec|].
  intros p h Hh Hr.
  assert (F : flag h Straight = false).
  { rewrite flag_Straight, (rank_counts_perm h Hr). vm_compute. reflexivity. }
  split; [exact F|]. split.
  - intros S. apply straight_flag_spec in S. rewrite F in S. discriminate S.
  - rewrite (rankHand_outcome p Hh), (rank_counts_perm h Hr).
    destruct (isFlush h); vm_compute; reflexivity.
Qed.

Lemma straight_flag_anchor_run_witness :
  flag wheel Straight = false /\ ~ straight_spec wheel /\
  rankHand (playerOf wheel)
  = Return {| player := playerOf wheel;
              category := Some (if isFlush wheel then Flush else HighCard);
              score := Js.Num (if isFlush wheel then 628 else 114) |}.
Proof.
  apply (proj2 straight_flag_anchor_run (playerOf wheel) wheel).
  - reflexivity.
  - apply Permutation_refl.
Defined.

(* ================================================================== *)
(** ** The scenarios of the specification *)
(* ================================================================== *)

Example flush_scenario :
  let h := [card R2 clubs; card R5 clubs; card R9 clubs; card R11 clubs; card R13 clubs] in
  rankHand (playerOf h)
  = Return {| player := playerOf h; category := Some Flush; score := Js.Num 640 |}.
Proof. reflexivity. Qed.

Example two_pairs_scenario :
  let h := [card R2 clubs; card R2 hearts; card R5 spades; card R5 hearts; card R9 clubs] in
  rankHand (playerOf h)
  = Return {| player := playerOf h; category := Some TwoPairs; score := Js.Num 323 |}.
Proof. reflexivity. Qed.

Example compare_scenario :
  compareHands [playerOf hand1; playerOf hand2]
  = Return [ {| player := playerOf hand2; category := Some Pair; score := Js.Num 219 |};
             {| player := playerOf hand1; category := Some Pair; score := Js.Num 217 |} ].
Proof. reflexivity. Qed.

Example tie_scenario :
  let p := {| playerId := "a"; hand := Some hand1 |} in
  let q := {| playerId := "b"; hand := Some hand1 |} in
  compareHands [p; q; playerOf hand2]
  = Return [ {| player := playerOf hand2; category := Some Pair; score := Js.Num 219 |};
             {| player := p; category := Some Pair; score := Js.Num 217 |};
             {| player := q; category := Some Pair; score := Js.Num 217 |} ].
Proof. reflexivity. Qed.

Example no_player_scenario : compareHands [] = Return [].
Proof. reflexivity. Qed.

(* ================================================================== *)
(** ** The tally builder, in full *)
(* ================================================================== *)

Lemma suit_counts_sum (h : list Card) : list_sum (suit_counts h) = length h.
Proof.
  induction h as [|c h IH]; [reflexivity|].
  cbn [length]. rewrite <- IH. unfold suit_counts, count_suit, all_suits.
  cbn [map filter list_sum fold_right].
  destruct (suit c); cbn [Suit_beq length]; lia.
Qed.

(** X1: the two records the tally builder fills keep their keys, in the order
    of the literals (ranks ascending from 2 to 14); under each key stands the
    number of cards of the hand with that suit, that rank; and the counts of
    each record add up to the number of cards. *)
Theorem tally_invariant (h : list Card) :
  let '(suits, ranks) := tally h in
  Obj.keys suits = all_suits /\ Obj.keys ranks = all_ranks /\
  (forall s, Obj.get suits s = Some (count_suit s h)) /\
  (forall r, Obj.get ranks r = Some (count_rank r h)) /\
  list_sum (Obj.values suits) = length h /\
  list_sum (Obj.values ranks) = length h.
Proof.
  rewrite tally_counts. split; [reflexivity|]. split; [reflexivity|].
  split; [intros s; destruct s; reflexivity|].
  split; [intros r; destruct r; reflexivity|]. split.
  - change (Obj.values (suitsOf (suit_counts h))) with (suit_counts h).
    apply suit_counts_sum.
  - change (Obj.values (ranksOf (rank_counts h))) with (rank_counts h).
    apply rank_counts_sum.
Qed.

(* ================================================================== *)
(** ** What the result depends on *)
(* ================================================================== *)

Lemma suit_counts_perm (h h' : list Card) :
  Permutation h h' -> suit_counts h = suit_counts h'.
Proof.
  intros HP. unfold suit_counts. apply map_ext. intros s.
  unfold count_suit. now apply filter_length_perm.
Qed.

Lemma rank_counts_same_ranks (h h' : list Card) :
  Permutation (map rank h) (map rank h') -> rank_counts h = rank_counts h'.
Proof.
  intros HP. rewrite (rank_counts_perm h HP). unfold rank_counts.
  apply map_ext. intros r. symmetry. apply count_rank_map.
Qed.

(** The result is read off the rank counts and the flush flag. *)
Lemma same_counts_same_result (p p' : PlayerWithHand) (h h' : list Card) :
  hand p = Some h -> hand p' = Some h' ->
  rank_counts h = rank_counts h' -> isFlush h = isFlush h' ->
  exists (c : HandCategory) (sc : Js.number),
    rankHand p = Return {| player := p; category := Some c; score := sc |} /\
    rankHand p' = Return {| player := p'; category := Some c; score := sc |}.
Proof.
  intros Hh Hh' Hr Hf.
  destruct (rankHand_returns p Hh) as (c & sc & R & _). exists c, sc.
  split; [exact R|].
  rewrite (rankHand_outcome p Hh) in R. rewrite (rankHand_outcome p' Hh').
  rewrite <- Hr, <- Hf.
  destruct (outcome _ _) as [e|[c0 sc0]]; [discriminate R|].
  cbn [bind fst snd] in *. injection R as -> ->. reflexivity.
Qed.

(** X2: the category and the score of a hand depend on the ranks it holds, in
    any order, and on whether some suit has five cards, on nothing else of the
    hand: two players whose hands (of any length) agree on these are given the
    same category and the same score. *)
Theorem rankHand_ranks_and_flush (p p' : PlayerWithHand) (h h' : list Card) :
  hand p = Some h -> hand p' = Some h' ->
  Permutation (map rank h) (map rank h') -> isFlush h = isFlush h' ->
  exists (c : HandCategory) (sc : Js.number),
    rankHand p = Return {| player := p; category := Some c; score := sc |} /\
    rankHand p' = Return {| player := p'; category := Some c; score := sc |}.
Proof.
  intros Hh Hh' Hr Hf. apply (same_counts_same_result p p' Hh Hh'); [|assumption].
  now apply rank_counts_same_ranks.
Qed.

Lemma rankHand_ranks_and_flush_witness :
  exists (c : HandCategory) (sc : Js.number),
    rankHand (playerOf hand1)
    = Return {| player := playerOf hand1; category := Some c; score := sc |} /\
    rankHand (playerOf [card R4 hearts; card R4 spades; card R7 clubs; card R2 diamonds;
                        card R9 hearts])
    = Return {| player := playerOf [card R4 hearts; card R4 spades; card R7 clubs;
                                    card R2 diamonds; card R9 hearts];
                category := Some c; score := sc |}.
Proof.
  apply (@rankHand_ranks_and_flush (playerOf hand1) _ hand1
           [card R4 hearts; card R4 spades; card R7 clubs; card R2 diamonds;
            card R9 hearts]); reflexivity.
Defined.

(** X3: the order of the cards in the hand is immaterial: the hands of two
    players being permutations of one another (of any length), the two are
    given the same category and the same score. *)
Theorem rankHand_card_order (p p' : PlayerWithHand) (h h' : list Card) :
  hand p = Some h -> hand p' = Some h' -> Permutation h h' ->
  exists (c : HandCategory) (sc : Js.number),
    rankHand p = Return {| player := p; category := Some c; score := sc |} /\
    rankHand p' = Return {| player := p'; category := Some c; score := sc |}.
Proof.
  intros Hh Hh' HP. apply (same_counts_same_result p p' Hh Hh').
  - apply rank_counts_same_ranks. now apply Permutation_map.
  - unfold isFlush. now rewrite (suit_counts_perm HP).
Qed.

Lemma rankHand_card_order_witness :
  exists (c : HandCategory) (sc : Js.number),
    rankHand (playerOf hand1)
    = Return {| player := playerOf hand1; category := Some c; score := sc |} /\
    rankHand (playerOf (rev hand1))
    = Return {| player := playerOf (rev hand1); category := Some c; score := sc |}.
Proof.
  apply (@rankHand_card_order (playerOf hand1) (playerOf (rev hand1)) hand1 (rev hand1));
    try reflexivity.
  apply Permutation_rev.
Defined.

(* ================================================================== *)
(** ** Scores that add up the whole hand *)
(* ================================================================== *)

Lemma categoryIndex_nth (i : nat) (c : HandCategory) :
  nth_error priorityOrder i = Some c -> categoryIndex c = i.
Proof. intros Hn. cases_index i Hn; reflexivity. Qed.

(** The evaluation of the five categories that add up the cards. *)
Lemma evaluate_whole_hand (suits : Obj.t Suit nat) (ranks : Obj.t Rank nat)
    (h : list Card) (c : HandCategory) (sc : Js.number) :
  evaluate suits ranks h = Return (Some c, sc) ->
  In c [RoyalFlush; StraightFlush; FullHouse; Flush; Straight] ->
  sc = Js.Num (1000 - 100 * Z.of_nat (categoryIndex c) + hand_value h).
Proof.
  unfold evaluate. rewrite categoryMap_flags. cbv zeta.
  match goal with
  | |- context [every_key [(RoyalFlush, ?b0); (StraightFlush, ?b1); (FourOfAKind, ?b2);
                           (FullHouse, ?b3); (Flush, ?b4); (Straight, ?b5);
                           (ThreeOfAKind, ?b6); (TwoPairs, ?b7); (Pair, ?b8); _; _]] =>
      destruct (every_key_first b0 b1 b2 b3 b4 b5 b6 b7 b8) as (i & c0 & Ek & Hn & _)
  end.
  rewrite Ek. apply categoryIndex_nth in Hn. subst i.
  intros E Hin.
  assert (c0 = c).
  { destruct (addValues (Some c0) h ranks _); [discriminate E|].
    cbn [bind] in E. now injection E. }
  subst c0.
  destruct Hin as [<-|[<-|[<-|[<-|[<-|[]]]]]];
    cbn [addValues addKicker bind] in E; rewrite addCards_value in E;
    now injection E as <-.
Qed.

(** X4: a hand (of any length) ranked 'royal flush', 'straight flush', 'full
    house', 'flush' or 'straight' scores the base score of the category,
    1000 - 100 * its position, plus the sum of the values of all its cards. *)
Theorem whole_hand_score (p : PlayerWithHand) (h : list Card) (res : RankHandReponse)
    (c : HandCategory) :
  hand p = Some h -> rankHand p = Return res -> category res = Some c ->
  In c [RoyalFlush; StraightFlush; FullHouse; Flush; Straight] ->
  score res = Js.Num (1000 - 100 * Z.of_nat (categoryIndex c) + hand_value h).
Proof.
  intros Hh E Hc Hin. rewrite (rankHand_evaluate p Hh) in E.
  destruct (evaluate _ _ h) as [e|[c0 sc]] eqn:Ev; [discriminate E|].
  cbn [bind fst snd] in E. injection E as <-. cbn [category score] in *. subst c0.
  exact (evaluate_whole_hand _ _ _ Ev Hin).
Qed.

Lemma whole_hand_score_witness :
  Js.Num 640 = Js.Num (1000 - 100 * Z.of_nat (categoryIndex Flush) + hand_value flushHand).
Proof.
  apply (@whole_hand_score (playerOf flushHand) flushHand
           {| player := playerOf flushHand; category := Some Flush; score := Js.Num 640 |}
           Flush); try reflexivity.
  simpl. tauto.
Defined.

(* ================================================================== *)
(** ** Five-card hands: the rule of each category *)
(* ================================================================== *)

Lemma all_checks_all :
  forallb (fun v => all_checks v true && all_checks v false) (vectors 13 5) = true.
Proof. vm_cast_no_check (eq_refl true). Qed.

(** The tests hold of the result of [rankHand] on a hand of five cards. *)
Lemma checks_of_hand (p : PlayerWithHand) (h : list Card) (res : RankHandReponse)
    (c : HandCategory) :
  hand p = Some h -> length h = 5 -> rankHand p = Return res -> category res = Some c ->
  let v := rank_counts h in
  let fl := isFlush h in
  let sc := score res in
  trips_check v fl c sc = true /\ full_house_check v fl c sc = true /\
  two_pairs_check v fl c sc = true /\ high_card_check v fl c sc = true /\
  range_check v fl c sc = true /\ royal_check v fl c sc = true /\
  suit_check v fl c sc = true /\ straight_check v fl c sc = true /\
  four_pair_check v fl c sc = true.
Proof.
  intros Hh Hl E Hc. destruct (rankHand_result p Hh E) as [O _]. rewrite Hc in O.
  pose proof (five_cards all_checks all_checks_all h Hl) as C.
  unfold all_checks in C. rewrite O in C. cbv beta iota in C. cbv zeta.
  do 8 (apply andb_true_iff in C; destruct C as [C ?]).
  repeat split; assumption.
Qed.

Lemma hasCount_spec (h : list Card) (n : nat) :
  hasCount (rank_counts h) n = true <-> exists r, count_rank r h = n.
Proof.
  unfold hasCount. rewrite existsb_exists. split.
  - intros (r & _ & E). rewrite cnt_rank_counts in E. apply Nat.eqb_eq in E. now exists r.
  - intros (r & E). exists r. split; [apply all_ranks_complete|].
    rewrite cnt_rank_counts. now apply Nat.eqb_eq.
Qed.

Lemma hasCount_false (h : list Card) (n : nat) :
  hasCount (rank_counts h) n = false <-> forall r, count_rank r h <> n.
Proof.
  split.
  - intros F r E. assert (T : hasCount (rank_counts h) n = true)
      by (apply hasCount_spec; now exists r).
    rewrite F in T. discriminate T.
  - intros N. destruct (hasCount (rank_counts h) n) eqn:T; [|reflexivity].
    apply hasCount_spec in T. destruct T as (r & E). destruct (N r E).
Qed.

Lemma HandCategory_beq_iff (c c' : HandCategory) : HandCategory_beq c c' = true <-> c = c'.
Proof. exact (key_eqb_eq c c'). Qed.

Ltac same_cat H c := change (HandCategory_beq c c) with true in H; cbv iota in H.

(** X5: a hand of five cards is ranked 'three of a kind' exactly when some
    rank occurs three times in it, no rank twice, and its cards are not all
    of one suit; its score is then 400 plus three times that rank: the two
    other cards do not count. *)
Theorem three_of_a_kind_rule (p : PlayerWithHand) (h : list Card)
    (res : RankHandReponse) (c : HandCategory) :
  hand p = Some h -> length h = 5 -> rankHand p = Return res -> category res = Some c ->
  (c = ThreeOfAKind <->
   (exists t, count_rank t h = 3) /\ (forall r, count_rank r h <> 2) /\ isFlush h = false)
  /\ (c = ThreeOfAKind ->
      forall t, count_rank t h = 3 -> score res = Js.Num (400 + 3 * rank_value t)).
Proof.
  intros Hh Hl E Hc. destruct (checks_of_hand p Hh Hl E Hc) as (C & _).
  unfold trips_check in C. apply andb_true_iff in C. destruct C as [Ci Cs].
  apply eqb_prop in Ci. split.
  - rewrite <- HandCategory_beq_iff, Ci, !andb_true_iff, !negb_true_iff.
    rewrite hasCount_spec, hasCount_false. tauto.
  - intros -> t Ht. same_cat Cs ThreeOfAKind.
    pose proof (forallb_ranks _ Cs t) as Ct. cbv beta in Ct.
    rewrite cnt_rank_counts, Ht in Ct. now apply same_eq in Ct.
Qed.

Lemma three_of_a_kind_rule_witness :
  (ThreeOfAKind = ThreeOfAKind <->
   (exists t, count_rank t trips = 3) /\ (forall r, count_rank r trips <> 2)
   /\ isFlush trips = false)
  /\ (ThreeOfAKind = ThreeOfAKind ->
      forall t, count_rank t trips = 3 -> Js.Num 421 = Js.Num (400 + 3 * rank_value t)).
Proof.
  apply (@three_of_a_kind_rule (playerOf trips) trips
           {| player := playerOf trips; category := Some ThreeOfAKind;
              score := Js.Num 421 |} ThreeOfAKind); reflexivity.
Defined.

(** X6: a hand of five cards is ranked 'full house' exactly when some rank
    occurs three times in it and some rank twice; its score is then 700 plus
    three times the first rank plus twice the second. *)
Theorem full_house_rule (p : PlayerWithHand) (h : list Card)
    (res : RankHandReponse) (c : HandCategory) :
  hand p = Some h -> length h = 5 -> rankHand p = Return res -> category res = Some c ->
  (c = FullHouse <-> (exists t, count_rank t h = 3) /\ (exists r, count_rank r h = 2))
  /\ (c = FullHouse ->
      forall t r, count_rank t h = 3 -> count_rank r h = 2 ->
                  score res = Js.Num (700 + 3 * rank_value t + 2 * rank_value r)).
Proof.
  intros Hh Hl E Hc. destruct (checks_of_hand p Hh Hl E Hc) as (_ & C & _).
  unfold full_house_check in C. apply andb_true_iff in C. destruct C as [Ci Cs].
  apply eqb_prop in Ci. split.
  - rewrite <- HandCategory_beq_iff, Ci, !andb_true_iff, !hasCount_spec. tauto.
  - intros -> t r Ht Hr. same_cat Cs FullHouse. pose proof (forallb_ranks _ Cs t) as Ct.
    cbv beta in Ct. rewrite cnt_rank_counts, Ht in Ct. cbn [Nat.eqb] in Ct.
    pose proof (forallb_ranks _ Ct r) as Cr. cbv beta in Cr.
    rewrite cnt_rank_counts, Hr in Cr. now apply same_eq in Cr.
Qed.

Lemma full_house_rule_witness :
  (FullHouse = FullHouse <->
   (exists t, count_rank t fullHouse = 3) /\ (exists r, count_rank r fullHouse = 2))
  /\ (FullHouse = FullHouse ->
      forall t r, count_rank t fullHouse = 3 -> count_rank r fullHouse = 2 ->
                  Js.Num 734 = Js.Num (700 + 3 * rank_value t + 2 * rank_value r)).
Proof.
  apply (@full_house_rule (playerOf fullHouse) fullHouse
           {| player := playerOf fullHouse; category := Some FullHouse;
              score := Js.Num 734 |} FullHouse); reflexivity.
Defined.

Lemma two_distinct_pairs (h : list Card) :
  existsb
    (fun a =>
       if cnt (rank_counts h) a =? 2
       then existsb (fun b => (cnt (rank_counts h) b =? 2) && negb (Rank_beq a b)) all_ranks
       else false)
    all_ranks = true
  <-> exists a b, a <> b /\ count_rank a h = 2 /\ count_rank b h = 2.
Proof.
  split.
  - intros X. apply existsb_ranks in X. destruct X as (a & X).
    rewrite cnt_rank_counts in X. destruct (count_rank a h =? 2) eqn:Ca; [|discriminate X].
    apply existsb_ranks in X. destruct X as (b & X). rewrite cnt_rank_counts in X.
    apply andb_true_iff in X. destruct X as [Cb N].
    apply Nat.eqb_eq in Ca, Cb. apply negb_true_iff in N.
    exists a, b. repeat split; try assumption.
    intros ->. rewrite (proj2 (Rank_beq_true b b) eq_refl) in N. discriminate N.
  - intros (a & b & N & Ca & Cb). apply existsb_exists. exists a.
    split; [apply all_ranks_complete|]. rewrite cnt_rank_counts, Ca. cbn [Nat.eqb].
    apply existsb_exists. exists b. split; [apply all_ranks_complete|].
    rewrite cnt_rank_counts, Cb. cbn [Nat.eqb andb]. apply negb_true_iff.
    destruct (Rank_beq a b) eqn:B; [|reflexivity]. apply Rank_beq_true in B. contradiction.
Qed.

(** X7: a hand of five cards is ranked 'two pairs' exactly when two different
    ranks occur twice each in it and its cards are not all of one suit; its
    score is then 300 plus twice each of the two ranks plus the rank of the
    fifth card. *)
Theorem two_pairs_rule (p : PlayerWithHand) (h : list Card)
    (res : RankHandReponse) (c : HandCategory) :
  hand p = Some h -> length h = 5 -> rankHand p = Return res -> category res = Some c ->
  (c = TwoPairs <->
   isFlush h = false /\ exists a b, a <> b /\ count_rank a h = 2 /\ count_rank b h = 2)
  /\ (c = TwoPairs ->
      exists a b k,
        (rank_value a < rank_value b)%Z /\
        count_rank a h = 2 /\ count_rank b h = 2 /\ count_rank k h = 1 /\
        score res
        = Js.Num (300 + 2 * rank_value a + 2 * rank_value b + rank_value k)).
Proof.
  intros Hh Hl E Hc. destruct (checks_of_hand p Hh Hl E Hc) as (_ & _ & C & _).
  unfold two_pairs_check in C. apply andb_true_iff in C. destruct C as [Ci Cs].
  apply eqb_prop in Ci. split.
  - rewrite <- HandCategory_beq_iff, Ci, andb_true_iff, negb_true_iff.
    now rewrite two_distinct_pairs.
  - intros ->. same_cat Cs TwoPairs.
    apply existsb_ranks in Cs. destruct Cs as (a & X). rewrite cnt_rank_counts in X.
    destruct (count_rank a h =? 2) eqn:Ca; [|discriminate X].
    apply existsb_ranks in X. destruct X as (b & X). rewrite cnt_rank_counts in X.
    destruct (count_rank b h =? 2) eqn:Cb; [|discriminate X]. cbn [andb] in X.
    destruct (rank_value a <? rank_value b)%Z eqn:Lab; [|discriminate X].
    apply existsb_ranks in X. destruct X as (k & X). rewrite cnt_rank_counts in X.
    apply andb_true_iff in X. destruct X as [Ck S].
    apply Nat.eqb_eq in Ca, Cb, Ck. apply Z.ltb_lt in Lab. apply same_eq in S.
    exists a, b, k. repeat split; assumption.
Qed.

Lemma two_pairs_rule_witness :
  (TwoPairs = TwoPairs <->
   isFlush twoPairs = false
   /\ exists a b, a <> b /\ count_rank a twoPairs = 2 /\ count_rank b twoPairs = 2)
  /\ (TwoPairs = TwoPairs ->
      exists a b k,
        (rank_value a < rank_value b)%Z /\
        count_rank a twoPairs = 2 /\ count_rank b twoPairs = 2 /\
        count_rank k twoPairs = 1 /\
        Js.Num 323
        = Js.Num (300 + 2 * rank_value a + 2 * rank_value b + rank_value k)).
Proof.
  apply (@two_pairs_rule (playerOf twoPairs) twoPairs
           {| player := playerOf twoPairs; category := Some TwoPairs;
              score := Js.Num 323 |} TwoPairs); reflexivity.
Defined.

Lemma count_rank_of_card (x : Card) (h : list Card) :
  In x h -> 1 <= count_rank (rank x) h.
Proof.
  intros Hin. unfold count_rank.
  assert (Hf : In x (filter (fun c => Rank_beq (rank c) (rank x)) h)).
  { apply filter_In. split; [assumption|]. now apply Rank_beq_true. }
  destruct (filter _ h); [destruct Hf|simpl; lia].
Qed.

(** X8: a hand of five cards ranked 'high card' has not all its cards of one
    suit, and either its five cards are of one rank (a card being given twice)
    and its score is [-Infinity], or its five ranks are different and its
    score is 100 plus the greatest of them: the four other cards do not
    count. *)
Theorem high_card_rule (p : PlayerWithHand) (h : list Card) (res : RankHandReponse) :
  hand p = Some h -> length h = 5 -> rankHand p = Return res ->
  category res = Some HighCard ->
  isFlush h = false /\
  (((exists r, count_rank r h = 5) /\ score res = Js.NegInfinity)
   \/ ((forall r, count_rank r h <= 1) /\
       exists k, count_rank k h = 1 /\
                 (forall x, In x h -> (rank_value (rank x) <= rank_value k)%Z) /\
                 score res = Js.Num (100 + rank_value k))).
Proof.
  intros Hh Hl E Hc. destruct (checks_of_hand p Hh Hl E Hc) as (_ & _ & _ & C & _).
  unfold high_card_check in C. same_cat C HighCard.
  apply andb_true_iff in C. destruct C as [Cf C].
  split; [now apply negb_true_iff|].
  destruct (hasCount (rank_counts h) 5) eqn:H5.
  - left. apply hasCount_spec in H5. apply same_eq in C. now split.
  - right. apply andb_true_iff in C. destruct C as [C1 Ck]. split.
    + intros r. pose proof (forallb_ranks _ C1 r) as Cr. cbv beta in Cr.
      rewrite cnt_rank_counts in Cr. now apply Nat.leb_le.
    + apply existsb_ranks in Ck. destruct Ck as (k & Ck).
      apply andb_true_iff in Ck. destruct Ck as [Ck S].
      apply andb_true_iff in Ck. destruct Ck as [Ck Cm].
      rewrite cnt_rank_counts in Ck. apply Nat.eqb_eq in Ck. apply same_eq in S.
      exists k. repeat split; try assumption.
      intros x Hx. pose proof (forallb_ranks _ Cm (rank x)) as Cx. cbv beta in Cx.
      rewrite cnt_rank_counts in Cx.
      replace (1 <=? count_rank (rank x) h) with true in Cx
        by (symmetry; apply Nat.leb_le; now apply count_rank_of_card).
      now apply Z.leb_le in Cx.
Qed.

Lemma high_card_rule_witness :
  isFlush highCard = false /\
  (((exists r, count_rank r highCard = 5) /\ Js.Num 113 = Js.NegInfinity)
   \/ ((forall r, count_rank r highCard <= 1) /\
       exists k, count_rank k highCard = 1 /\
                 (forall x, In x highCard -> (rank_value (rank x) <= rank_value k)%Z) /\
                 Js.Num 113 = Js.Num (100 + rank_value k))).
Proof.
  apply (@high_card_rule (playerOf highCard) highCard
           {| player := playerOf highCard; category := Some HighCard;
              score := Js.Num 113 |}); reflexivity.
Defined.

(* ================================================================== *)
(** ** Categories and scores *)
(* ================================================================== *)

Lemma score_in_range (r : RankHandReponse) :
  ranksFive r ->
  exists c, category r = Some c /\ In c priorityOrder /\
            ((exists z, score r = Js.Num z /\
                        (fst (scoreRange c) <= z <= snd (scoreRange c))%Z)
             \/ (score r = Js.NegInfinity /\ c = HighCard)).
Proof.
  intros (p & h & Hh & Hl & E).
  destruct (rankHand_returns p Hh) as (c & sc & R & Hin & _).
  assert (Hc : category r = Some c) by (rewrite R in E; now injection E as <-).
  exists c. split; [assumption|]. split; [assumption|].
  destruct (checks_of_hand p Hh Hl E Hc) as (_ & _ & _ & _ & C & _).
  unfold range_check in C. destruct (score r) as [| | |z]; try discriminate C.
  - right. split; [reflexivity|]. now apply HandCategory_beq_iff.
  - left. exists z. split; [reflexivity|].
    apply andb_true_iff in C. destruct C as [Cl Cu].
    apply Z.leb_le in Cl, Cu. now split.
Qed.

(** The ranges of the categories lie one above the other, in priority order. *)
Lemma ranges_ordered (c1 c2 : HandCategory) :
  In c2 priorityOrder -> categoryIndex c1 < categoryIndex c2 ->
  (snd (scoreRange c2) < fst (scoreRange c1))%Z /\ c1 <> HighCard.
Proof.
  intros Hin Hlt. split.
  - destruct c1, c2; cbn in Hlt |- *; try lia;
      exfalso; cbn in Hin; intuition discriminate.
  - intros ->. destruct c2; cbn in Hlt; try lia. cbn in Hin. intuition discriminate.
Qed.

Lemma dominates (r1 r2 : RankHandReponse) :
  ranksFive r1 -> ranksFive r2 -> resultIndex r1 < resultIndex r2 ->
  js_lt (score r2) (score r1).
Proof.
  intros F1 F2 Hlt.
  destruct (score_in_range F1) as (c1 & Hc1 & _ & S1).
  destruct (score_in_range F2) as (c2 & Hc2 & Hin2 & S2).
  unfold resultIndex in Hlt. rewrite Hc1, Hc2 in Hlt.
  destruct (ranges_ordered c1 Hin2 Hlt) as [Hr Hn].
  destruct S1 as [(z1 & -> & L1)|[_ ->]]; [|contradiction].
  destruct S2 as [(z2 & -> & L2)|[-> _]].
  - split; [simpl; lia|]. intros D. injection D as ->. lia.
  - split; [exact I|discriminate].
Qed.

(** X9: of two hands of five cards, the one of the category that comes
    first in the priority order has the strictly greater score, whatever the
    cards: the additions to the base score never reach the next category. *)
Theorem category_dominates_score (p1 p2 : PlayerWithHand) (h1 h2 : list Card)
    (res1 res2 : RankHandReponse) :
  hand p1 = Some h1 -> length h1 = 5 -> rankHand p1 = Return res1 ->
  hand p2 = Some h2 -> length h2 = 5 -> rankHand p2 = Return res2 ->
  resultIndex res1 < resultIndex res2 ->
  js_lt (score res2) (score res1).
Proof.
  intros Hh1 Hl1 E1 Hh2 Hl2 E2 Hlt.
  apply dominates; [| |assumption].
  - now exists p1, h1.
  - now exists p2, h2.
Qed.

Lemma category_dominates_score_witness : js_lt (Js.Num 219) (Js.Num 421).
Proof.
  apply (@category_dominates_score (playerOf trips) (playerOf hand2) trips hand2
           {| player := playerOf trips; category := Some ThreeOfAKind;
              score := Js.Num 421 |}
           {| player := playerOf hand2; category := Some Pair; score := Js.Num 219 |});
    try reflexivity.
  cbv. lia.
Defined.

Lemma StronglySorted_weaken_on {A : Type} (P : A -> Prop) (R R' : A -> A -> Prop)
    (l : list A) :
  (forall a b, P a -> P b -> R a b -> R' a b) ->
  Forall P l -> StronglySorted R l -> StronglySorted R' l.
Proof.
  intros HR HP S. induction S as [|a l S IH Ha]; [constructor|].
  inversion HP as [|? ? Pa Pl]; subst. constructor; [now apply IH|].
  rewrite Forall_forall in *. intros b Hb. apply HR; auto.
Qed.

Lemma ranked_five (ps : list PlayerWithHand) (rs : list RankHandReponse) :
  Forall (fun p => exists h, hand p = Some h /\ length h = 5) ps ->
  Forall2 (fun p r => rankHand p = Return r) ps rs ->
  Forall ranksFive rs.
Proof.
  intros HF F2. induction F2 as [|p r ps rs E F2 IH]; [constructor|].
  inversion HF as [|? ? (h & Hh & Hl) HF']; subst.
  constructor; [now exists p, h|now apply IH].
Qed.

(** X10: on two or more players who all hold five cards, [compareHands]
    returns the results in the priority order of their categories: no result
    stands before a result of a category that comes earlier in that order, so
    that the first result is of the best category present. *)
Theorem compareHands_orders_categories (ps : list PlayerWithHand) :
  2 <= length ps ->
  Forall (fun p => exists h, hand p = Some h /\ length h = 5) ps ->
  exists out,
    compareHands ps = Return out /\
    StronglySorted (fun a b => resultIndex a <= resultIndex b) out.
Proof.
  intros Hl H5. rewrite compareHands_many by lia.
  assert (HF : Forall (fun p => hand p <> None) ps).
  { eapply Forall_impl; [|exact H5]. intros p (h & Hh & _). congruence. }
  destruct (mapM_rankHand ps) as [(_ & rs & E & F2)|(HE & _)];
    [|destruct (Forall_not_Exists_null HF HE)].
  rewrite E. cbn [bind]. eexists. split; [reflexivity|].
  destruct (ranked_players F2) as [_ Hc].
  apply (StronglySorted_weaken_on (P := ranksFive)
           (R := fun a b => js_lt (score b) (score a) \/ score b = score a)).
  - intros a b Fa Fb D. apply Nat.nlt_ge. intros Hlt.
    destruct (dominates Fb Fa Hlt) as [L N].
    destruct D as [[L' _]|D]; [|congruence].
    apply N. now apply js_le_antisym.
  - eapply Permutation_Forall; [apply Permutation_sym, sort_perm|].
    eapply ranked_five; eassumption.
  - now apply sort_descending.
Qed.

Lemma compareHands_orders_categories_witness :
  exists out,
    compareHands [playerOf hand1; playerOf trips; playerOf highCard] = Return out /\
    StronglySorted (fun a b => resultIndex a <= resultIndex b) out.
Proof.
  apply (@compareHands_orders_categories [playerOf hand1; playerOf trips; playerOf highCard]).
  - simpl. lia.
  - repeat constructor; eexists; split; reflexivity.
Defined.

(* ================================================================== *)
(** ** Suits *)
(* ================================================================== *)

Lemma count_suit_full (s : Suit) (h : list Card) :
  count_suit s h = length h -> Forall (fun c => suit c = s) h.
Proof.
  intros E. apply filter_length_forallb in E. rewrite forallb_forall in E.
  apply Forall_forall. intros c Hc. specialize (E c Hc).
  now apply (key_eqb_eq (suit c) s).
Qed.

(** Some suit has five cards: the five cards are of one suit. *)
Lemma isFlush_one_suit_iff (h : list Card) :
  length h = 5 -> (isFlush h = true <-> exists s, Forall (fun c => suit c = s) h).
Proof.
  intros Hl. split.
  - intros F. unfold isFlush in F. apply existsb_exists in F.
    destruct F as (n & Hn & En). apply Nat.eqb_eq in En. subst n.
    unfold suit_counts in Hn. apply in_map_iff in Hn. destruct Hn as (s & Es & _).
    exists s. apply count_suit_full. congruence.
  - intros (s & Hs). exact (isFlush_one_suit Hl Hs).
Qed.

Lemma count_rank_occ (r : Rank) (h : list Card) :
  count_occ Rank_eq_dec (map rank h) r = count_rank r h.
Proof.
  unfold count_rank. induction h as [|c h IH]; [reflexivity|].
  cbn [map filter]. destruct (Rank_eq_dec (rank c) r) as [E|N].
  - rewrite count_occ_cons_eq by assumption.
    rewrite (proj2 (Rank_beq_true (rank c) r) E). simpl. now rewrite IH.
  - rewrite count_occ_cons_neq by assumption.
    destruct (Rank_beq (rank c) r) eqn:B; [apply Rank_beq_true in B; contradiction|].
    exact IH.
Qed.

(** X11: a hand of five cards is ranked 'royal flush' only if its cards are
    all of one suit and its ranks are 10, 11, 12, 13 and 14, once each. *)
Theorem royal_flush_only (p : PlayerWithHand) (h : list Card) (res : RankHandReponse) :
  hand p = Some h -> length h = 5 -> rankHand p = Return res ->
  category res = Some RoyalFlush ->
  (exists s, Forall (fun c => suit c = s) h)
  /\ Permutation (map rank h) [R10; R11; R12; R13; R14].
Proof.
  intros Hh Hl E Hc. destruct (checks_of_hand p Hh Hl E Hc) as (_ & _ & _ & _ & _ & C & _).
  unfold royal_check in C. change (HandCategory_beq RoyalFlush RoyalFlush) with true in C.
  cbn [implb] in C. apply andb_true_iff in C. destruct C as [Cf Cr]. split.
  - now apply (isFlush_one_suit_iff h Hl).
  - apply (Permutation_count_occ Rank_eq_dec). intros r. rewrite count_rank_occ.
    pose proof (forallb_ranks _ Cr r) as X. cbv beta in X.
    rewrite cnt_rank_counts in X. apply Nat.eqb_eq in X. rewrite X.
    destruct r; reflexivity.
Qed.

Lemma royal_flush_only_witness :
  (exists s, Forall (fun c => suit c = s) royal)
  /\ Permutation (map rank royal) [R10; R11; R12; R13; R14].
Proof.
  apply (@royal_flush_only (playerOf royal) royal
           {| player := playerOf royal; category := Some RoyalFlush;
              score := Js.Num 1060 |}); reflexivity.
Defined.

Lemma memCat_In (c : HandCategory) (l : list HandCategory) : memCat c l = true <-> In c l.
Proof.
  unfold memCat. rewrite existsb_exists. split.
  - intros (c' & Hin & E). apply HandCategory_beq_iff in E. now subst.
  - intros Hin. exists c. split; [assumption|now apply HandCategory_beq_iff].
Qed.

Lemma one_suit_distinct_ranks (s : Suit) (h : list Card) (r : Rank) :
  NoDup h -> Forall (fun c => suit c = s) h -> count_rank r h <= 1.
Proof.
  intros ND Hs. unfold count_rank.
  change 1 with (length [card r s]).
  apply NoDup_incl_length; [now apply NoDup_filter|].
  intros [r' s'] Hin. apply filter_In in Hin. destruct Hin as [Hin Hr].
  rewrite Forall_forall in Hs. specialize (Hs _ Hin).
  cbn [rank suit] in *. apply Rank_beq_true in Hr. subst. now left.
Qed.

(** X12: a hand of five cards ranked 'royal flush', 'straight flush' or
    'flush' has all its cards of one suit; and a hand of five distinct cards
    of one suit is ranked one of these three. *)
Theorem flush_categories (p : PlayerWithHand) (h : list Card) (res : RankHandReponse)
    (c : HandCategory) :
  hand p = Some h -> length h = 5 -> rankHand p = Return res -> category res = Some c ->
  (In c [RoyalFlush; StraightFlush; Flush] -> exists s, Forall (fun x => suit x = s) h)
  /\ (NoDup h -> (exists s, Forall (fun x => suit x = s) h) ->
      In c [RoyalFlush; StraightFlush; Flush]).
Proof.
  intros Hh Hl E Hc.
  destruct (checks_of_hand p Hh Hl E Hc) as (_ & _ & _ & _ & _ & _ & C & _).
  unfold suit_check in C. apply andb_true_iff in C. destruct C as [C1 C2]. split.
  - intros Hin. apply memCat_In in Hin. rewrite Hin in C1. cbn [implb] in C1.
    now apply (isFlush_one_suit_iff h Hl).
  - intros ND (s & Hs). apply memCat_In.
    rewrite (isFlush_one_suit Hl Hs) in C2.
    replace (forallb (fun r => cnt (rank_counts h) r <=? 1) all_ranks) with true in C2;
      [exact C2|].
    symmetry. apply forallb_forall. intros r _. rewrite cnt_rank_counts.
    apply Nat.leb_le. exact (one_suit_distinct_ranks r ND Hs).
Qed.

Lemma flush_categories_witness :
  (In Flush [RoyalFlush; StraightFlush; Flush] ->
   exists s, Forall (fun x => suit x = s) flushHand)
  /\ (NoDup flushHand -> (exists s, Forall (fun x => suit x = s) flushHand) ->
      In Flush [RoyalFlush; StraightFlush; Flush]).
Proof.
  apply (@flush_categories (playerOf flushHand) flushHand
           {| player := playerOf flushHand; category := Some Flush; score := Js.Num 640 |}
           Flush); reflexivity.
Defined.

(* ================================================================== *)
(** ** compareHands and the order of the players *)
(* ================================================================== *)

Lemma ranked_map (ps : list PlayerWithHand) (rs : list RankHandReponse) :
  Forall2 (fun p r => rankHand p = Return r) ps rs -> rs = map rankedOf ps.
Proof.
  induction 1 as [|p r ps rs E _ IH]; [reflexivity|].
  cbn [map]. unfold rankedOf at 1. rewrite E. now rewrite IH.
Qed.

(** [compareHands] on hands that are all present, of any number. *)
Lemma compareHands_returns (ps : list PlayerWithHand) (out : list RankHandReponse) :
  compareHands ps = Return out ->
  (exists p, ps = [p] /\
             out = [ {| player := p; category := Some WinViaFold; score := Js.Num 10000 |} ])
  \/ (length ps <> 1 /\ Forall (fun p => hand p <> None) ps /\
      out = Js.sort (fun handA handB => Js.sub (score handB) (score handA))
              (map rankedOf ps) /\
      map player (map rankedOf ps) = ps /\
      Forall (fun r => comparable (score r)) (map rankedOf ps)).
Proof.
  intros E. destruct ps as [|p [|q ps]].
  - right. injection E as <-. repeat split; try constructor. discriminate.
  - left. exists p. split; [reflexivity|]. now injection E as <-.
  - right. rewrite compareHands_many in E by (simpl; lia).
    destruct (mapM_rankHand (p :: q :: ps)) as [(HF & rs & M & F2)|(_ & M)];
      rewrite M in E; cbn [bind] in E; [|discriminate E].
    injection E as <-. destruct (ranked_players F2) as [Hp Hc].
    rewrite <- (ranked_map F2). repeat split; try assumption. simpl. lia.
Qed.

(** X13: whenever [compareHands] returns, on a list of any length, the
    players of the results are the players given, each once, in some order. *)
Theorem compareHands_keeps_players (ps : list PlayerWithHand) (out : list RankHandReponse) :
  compareHands ps = Return out -> Permutation (map player out) ps.
Proof.
  intros E. destruct (compareHands_returns ps E) as [(p & -> & ->)|(_ & _ & -> & Hp & _)].
  - apply Permutation_refl.
  - rewrite <- Hp at 2. apply Permutation_map. apply sort_perm.
Qed.

Lemma compareHands_keeps_players_witness :
  Permutation
    (map player
       [ {| player := playerOf hand2; category := Some Pair; score := Js.Num 219 |};
         {| player := playerOf hand1; category := Some Pair; score := Js.Num 217 |} ])
    [playerOf hand1; playerOf hand2].
Proof.
  apply (@compareHands_keeps_players [playerOf hand1; playerOf hand2]). reflexivity.
Defined.

(** Two lists in descending order that hold the same numbers are equal. *)
Lemma descending_unique (l1 l2 : list Js.number) :
  StronglySorted (fun x y => js_lt y x \/ y = x) l1 ->
  StronglySorted (fun x y => js_lt y x \/ y = x) l2 ->
  Permutation l1 l2 -> l1 = l2.
Proof.
  intros S1. revert l2. induction S1 as [|a l1 S1 IH Ha]; intros l2 S2 HP.
  - apply Permutation_nil in HP. now subst.
  - destruct l2 as [|b l2]; [apply Permutation_sym, Permutation_nil in HP; discriminate HP|].
    inversion S2 as [|? ? S2' Hb]; subst.
    assert (Eab : a = b).
    { assert (Ia : In a (b :: l2)) by (eapply Permutation_in; [exact HP|now left]).
      assert (Ib : In b (a :: l1))
        by (eapply Permutation_in; [apply Permutation_sym, HP|now left]).
      destruct Ia as [->|Ia]; [reflexivity|]. destruct Ib as [->|Ib]; [reflexivity|].
      rewrite Forall_forall in Ha, Hb.
      destruct (Ha b Ib) as [[L N]|D]; [|now subst].
      destruct (Hb a Ia) as [[L' N']|D]; [|now subst].
      now apply js_le_antisym. }
    subst b. f_equal. apply IH; [assumption|]. now apply Permutation_cons_inv in HP.
Qed.

Lemma StronglySorted_map {A B : Type} (f : A -> B) (R : B -> B -> Prop) (l : list A) :
  StronglySorted (fun x y => R (f x) (f y)) l -> StronglySorted R (map f l).
Proof.
  induction 1 as [|a l _ IH Ha]; [constructor|].
  cbn [map]. constructor; [assumption|]. apply Forall_map. exact Ha.
Qed.

(** X14: the scores [compareHands] returns, in the order it returns them, do
    not depend on the order in which the players are given. *)
Theorem compareHands_scores_any_order (ps ps' : list PlayerWithHand)
    (out : list RankHandReponse) :
  Permutation ps ps' -> compareHands ps = Return out ->
  exists out', compareHands ps' = Return out' /\ map score out' = map score out.
Proof.
  intros HP E. destruct (compareHands_returns ps E) as [(p & -> & ->)|(Hl & HF & -> & _ & Hc)].
  - apply Permutation_length_1_inv in HP. subst ps'. eexists. split; reflexivity.
  - assert (Hl' : length ps' <> 1) by (rewrite <- (Permutation_length HP); exact Hl).
    assert (HF' : Forall (fun p => hand p <> None) ps')
      by (eapply Permutation_Forall; eassumption).
    rewrite compareHands_many by assumption.
    destruct (mapM_rankHand ps') as [(_ & rs' & M & F2)|(HE & _)];
      [|destruct (Forall_not_Exists_null HF' HE)].
    rewrite M. cbn [bind]. eexists. split; [reflexivity|].
    rewrite (ranked_map F2).
    assert (Hc' : Forall (fun r => comparable (score r)) (map rankedOf ps'))
      by (eapply Permutation_Forall; [apply Permutation_map, HP|exact Hc]).
    apply descending_unique.
    + apply StronglySorted_map. now apply sort_descending.
    + apply StronglySorted_map. now apply sort_descending.
    + apply Permutation_map.
      eapply Permutation_trans; [apply sort_perm|].
      eapply Permutation_trans; [|apply Permutation_sym, sort_perm].
      apply Permutation_map, Permutation_sym, HP.
Qed.

Lemma compareHands_scores_any_order_witness :
  exists out',
    compareHands [playerOf hand2; playerOf hand1] = Return out' /\
    map score out'
    = map score
        [ {| player := playerOf hand2; category := Some Pair; score := Js.Num 219 |};
          {| player := playerOf hand1; category := Some Pair; score := Js.Num 217 |} ].
Proof.
  apply (@compareHands_scores_any_order [playerOf hand1; playerOf hand2]).
  - apply perm_swap.
  - reflexivity.
Defined.

(* ================================================================== *)
(** ** Five-card hands: straights, fours and pairs *)
(* ================================================================== *)

Lemma isRun_spec (h : list Card) (a : Rank) :
  isRun (rank_counts h) a = true <-> runOf h a.
Proof.
  unfold isRun, runOf. rewrite andb_true_iff, Z.leb_le. split.
  - intros [La F]. split; [assumption|]. intros r.
    pose proof (forallb_ranks _ F r) as X. cbv beta in X.
    rewrite cnt_rank_counts in X. now apply Nat.eqb_eq in X.
  - intros [La F]. split; [assumption|]. apply forallb_forall. intros r _.
    rewrite cnt_rank_counts. apply Nat.eqb_eq, F.
Qed.

(** X15: a hand of five cards is ranked 'royal flush', 'straight flush' or
    'straight' exactly when its ranks are five consecutive ranks a, a + 1, ...,
    a + 4 with a at most 10, once each (so never 14, 2, 3, 4, 5); its score is
    then the base score of the category plus 5 * a + 10. *)
Theorem straight_rule (p : PlayerWithHand) (h : list Card) (res : RankHandReponse)
    (c : HandCategory) :
  hand p = Some h -> length h = 5 -> rankHand p = Return res -> category res = Some c ->
  (In c [RoyalFlush; StraightFlush; Straight] <-> exists a, runOf h a)
  /\ (In c [RoyalFlush; StraightFlush; Straight] ->
      forall a, runOf h a ->
                score res
                = Js.Num (1000 - 100 * Z.of_nat (categoryIndex c) + 5 * rank_value a + 10)).
Proof.
  intros Hh Hl E Hc.
  destruct (checks_of_hand p Hh Hl E Hc) as (_ & _ & _ & _ & _ & _ & _ & C & _).
  unfold straight_check in C. apply andb_true_iff in C. destruct C as [Ci Cs].
  apply eqb_prop in Ci. split.
  - rewrite <- memCat_In, Ci, existsb_exists. split.
    + intros (a & _ & Ra). exists a. now apply isRun_spec.
    + intros (a & Ra). exists a. split; [apply all_ranks_complete|now apply isRun_spec].
  - intros Hin a Ra. apply memCat_In in Hin. rewrite Hin in Cs.
    pose proof (forallb_ranks _ Cs a) as X. cbv beta in X.
    rewrite (proj2 (isRun_spec h a) Ra) in X. now apply same_eq in X.
Qed.

Lemma straight_rule_witness :
  (In Straight [RoyalFlush; StraightFlush; Straight] <-> exists a, runOf straightHand a)
  /\ (In Straight [RoyalFlush; StraightFlush; Straight] ->
      forall a, runOf straightHand a ->
                Js.Num 535
                = Js.Num (1000 - 100 * Z.of_nat (categoryIndex Straight)
                          + 5 * rank_value a + 10)).
Proof.
  apply (@straight_rule (playerOf straightHand) straightHand
           {| player := playerOf straightHand; category := Some Straight;
              score := Js.Num 535 |} Straight); reflexivity.
Defined.

(** X16: a hand of five cards is ranked 'four of a kind' exactly when some
    rank occurs four times in it. *)
Theorem four_of_a_kind_iff (p : PlayerWithHand) (h : list Card) (res : RankHandReponse)
    (c : HandCategory) :
  hand p = Some h -> length h = 5 -> rankHand p = Return res -> category res = Some c ->
  (c = FourOfAKind <-> exists r, count_rank r h = 4).
Proof.
  intros Hh Hl E Hc.
  destruct (checks_of_hand p Hh Hl E Hc) as (_ & _ & _ & _ & _ & _ & _ & _ & C).
  unfold four_pair_check in C. apply andb_true_iff in C. destruct C as [C4 _].
  apply eqb_prop in C4. now rewrite <- HandCategory_beq_iff, C4, hasCount_spec.
Qed.

Lemma four_of_a_kind_iff_witness :
  FourOfAKind = FourOfAKind <-> exists r, count_rank r quads = 4.
Proof.
  apply (@four_of_a_kind_iff (playerOf quads) quads
           {| player := playerOf quads; category := Some FourOfAKind;
              score := Js.Num 836 |} FourOfAKind); reflexivity.
Defined.

Lemma single_pair (h : list Card) :
  existsb
    (fun a =>
       if cnt (rank_counts h) a =? 2
       then forallb (fun b => implb (cnt (rank_counts h) b =? 2) (Rank_beq b a)) all_ranks
       else false)
    all_ranks = true
  <-> exists a, count_rank a h = 2 /\ forall b, count_rank b h = 2 -> b = a.
Proof.
  split.
  - intros X. apply existsb_ranks in X. destruct X as (a & X).
    rewrite cnt_rank_counts in X. destruct (count_rank a h =? 2) eqn:Ca; [|discriminate X].
    apply Nat.eqb_eq in Ca. exists a. split; [assumption|]. intros b Cb.
    pose proof (forallb_ranks _ X b) as Y. cbv beta in Y.
    rewrite cnt_rank_counts, Cb in Y. now apply Rank_beq_true in Y.
  - intros (a & Ca & U). apply existsb_exists. exists a.
    split; [apply all_ranks_complete|]. rewrite cnt_rank_counts, Ca. cbn [Nat.eqb].
    apply forallb_forall. intros b _. rewrite cnt_rank_counts.
    destruct (count_rank b h =? 2) eqn:Cb; [|reflexivity].
    apply Nat.eqb_eq in Cb. cbn [implb]. apply Rank_beq_true. now apply U.
Qed.

(** X17: a hand of five cards is ranked 'pair' exactly when one rank, and one
    only, occurs twice in it, no rank three times, and its cards are not all
    of one suit. *)
Theorem pair_iff (p : PlayerWithHand) (h : list Card) (res : RankHandReponse)
    (c : HandCategory) :
  hand p = Some h -> length h = 5 -> rankHand p = Return res -> category res = Some c ->
  (c = Pair <->
   isFlush h = false /\ (forall r, count_rank r h <> 3) /\
   exists a, count_rank a h = 2 /\ forall b, count_rank b h = 2 -> b = a).
Proof.
  intros Hh Hl E Hc.
  destruct (checks_of_hand p Hh Hl E Hc) as (_ & _ & _ & _ & _ & _ & _ & _ & C).
  unfold four_pair_check in C. apply andb_true_iff in C. destruct C as [_ Cp].
  apply eqb_prop in Cp.
  rewrite <- HandCategory_beq_iff, Cp, !andb_true_iff, !negb_true_iff.
  rewrite hasCount_false, single_pair. tauto.
Qed.

Lemma pair_iff_witness :
  Pair = Pair <->
  isFlush hand1 = false /\ (forall r, count_rank r hand1 <> 3) /\
  exists a, count_rank a hand1 = 2 /\ forall b, count_rank b hand1 = 2 -> b = a.
Proof.
  apply (@pair_iff (playerOf hand1) hand1
           {| player := playerOf hand1; category := Some Pair; score := Js.Num 217 |}
           Pair); reflexivity.
Defined.
